(** * polygon-MCP: the stock-price adapter of [src/index.ts] and [src/types.ts]

    A shallow embedding of the four request handlers registered by
    [PolygonServer] (list resources, read resource, list tools, call tool)
    and of the type guard [isValidStockPriceArgs].

    TypeScript types are erased at run time, so every value that crosses a
    boundary typed [any] or asserted by a type parameter (the tool arguments,
    the upstream reply body, the body of an error reply) is a JavaScript value
    [JsValue]; the operators the handlers apply to them ([typeof], [in],
    [===], [||], [??], property reads, template literals) are embedded with
    their ECMAScript meaning.  The upstream HTTP provider and the wall clock
    are the environment [Env]; every [axiosInstance.get] is recorded in a log
    of requested paths. *)

From Stdlib Require Import String List ZArith PrimFloat.
Import ListNotations.
Set Warnings "-register-all".
Local Open Scope string_scope.

(** ** JavaScript values *)

(** The values [JSON.parse] can produce, plus [undefined].  An object keeps its
    properties in insertion order, as a JavaScript object does. *)
Inductive JsValue : Type :=
| JUndefined
| JNull
| JBool (b : bool)
| JNumber (x : float)
| JString (s : string)
| JArray (elems : list JsValue)
| JObject (props : list (string * JsValue)).

(** Structural induction through the lists nested in arrays and objects. *)
Section JsValue_induction.

Variable P : JsValue -> Prop.
Hypothesis P_undefined : P JUndefined.
Hypothesis P_null : P JNull.
Hypothesis P_bool : forall b, P (JBool b).
Hypothesis P_number : forall x, P (JNumber x).
Hypothesis P_string : forall s, P (JString s).
Hypothesis P_array : forall elems, Forall P elems -> P (JArray elems).
Hypothesis P_object :
  forall props, Forall (fun kv => P (snd kv)) props -> P (JObject props).

Fixpoint JsValue_nested_ind (v : JsValue) : P v :=
  match v with
  | JUndefined => P_undefined
  | JNull => P_null
  | JBool b => P_bool b
  | JNumber x => P_number x
  | JString s => P_string s
  | JArray elems =>
      P_array elems
        ((fix all (l : list JsValue) : Forall P l :=
            match l with
            | [] => Forall_nil P
            | e :: rest => Forall_cons e (JsValue_nested_ind e) (all rest)
            end) elems)
  | JObject props =>
      P_object props
        ((fix all (l : list (string * JsValue))
            : Forall (fun kv => P (snd kv)) l :=
            match l with
            | [] => Forall_nil _
            | kv :: rest =>
                Forall_cons kv (JsValue_nested_ind (snd kv)) (all rest)
            end) props)
  end.

End JsValue_induction.

(** The error codes of the protocol this adapter uses. *)
Inductive ErrorCode : Type :=
| InvalidRequest
| MethodNotFound
| InvalidParams
| InternalError.

(** What [axios.isAxiosError] recognises: the transport error of the HTTP
    client.  [response] is absent when no reply arrived; its [data] is the
    parsed reply body, typed [any]. *)
Record AxiosResponse : Type := { data : JsValue }.

Record AxiosError : Type := {
  message : string;
  response : option AxiosResponse
}.

(** Exceptions a handler can end with.  [McpError] is the protocol error of the
    SDK, built from an [ErrorCode] and the message passed to its constructor;
    [TypeError] is raised by the language itself (a property read on
    [null]/[undefined], a failed conversion to a primitive); [AxiosErr] is a
    transport error of the HTTP client; [ForeignError] is any other exception
    the upstream call rejects with. *)
Inductive Exn : Type :=
| McpError (code : ErrorCode) (msg : string)
| TypeError
| AxiosErr (error : AxiosError)
| ForeignError (what : string).

(** Completion of an evaluation: a value, or a thrown exception. *)
Inductive Completion (A : Type) : Type :=
| Normal (a : A)
| Throw (e : Exn).
Arguments Normal {A} a.
Arguments Throw {A} e.

Module Js.

(** [typeof v] *)
Definition typeof (v : JsValue) : string :=
  match v with
  | JUndefined => "undefined"
  | JNull => "object"
  | JBool _ => "boolean"
  | JNumber _ => "number"
  | JString _ => "string"
  | JArray _ => "object"
  | JObject _ => "object"
  end.

(** Own-property lookup in an ordered property list (the first binding of a
    key is the property). *)
Fixpoint lookup (k : string) (props : list (string * JsValue)) : option JsValue :=
  match props with
  | [] => None
  | (k', v) :: rest => if String.eqb k k' then Some v else lookup k rest
  end.

(** [v.k] for a key [k] that no built-in prototype defines and that is not
    an array index or ["length"] (every key the handlers read is such:
    symbol, date, from, close, open, high, low, volume, message).  Reading a
    property of [null] or [undefined] throws; a primitive or an array has no
    such property; an object yields its own property or [undefined]. *)
Definition get (v : JsValue) (k : string) : Completion JsValue :=
  match v with
  | JUndefined | JNull => Throw TypeError
  | JObject props =>
      match lookup k props with
      | Some x => Normal x
      | None => Normal JUndefined
      end
  | _ => Normal JUndefined
  end.

(** [k in v], for a key as for [get]: own-property membership on an object,
    false on an array, and a [TypeError] on a primitive operand. *)
Definition has (k : string) (v : JsValue) : Completion bool :=
  match v with
  | JObject props =>
      Normal (match lookup k props with Some _ => true | None => false end)
  | JArray _ => Normal false
  | _ => Throw TypeError
  end.

(** [v === undefined] and [v !== null] *)
Definition is_undefined (v : JsValue) : bool :=
  match v with JUndefined => true | _ => false end.

Definition is_null (v : JsValue) : bool :=
  match v with JNull => true | _ => false end.

(** ToBoolean, the test of [if (v)] and of [v || w]. *)
Definition truthy (v : JsValue) : bool :=
  match v with
  | JUndefined | JNull => false
  | JBool b => b
  | JNumber x => negb (PrimFloat.is_zero x || PrimFloat.is_nan x)
  | JString s => negb (String.eqb s "")
  | JArray _ | JObject _ => true
  end.

(** [a || b] and [a ?? b] on already evaluated operands. *)
Definition or (a b : JsValue) : JsValue := if truthy a then a else b.

Definition nullish (v : JsValue) : bool :=
  match v with JUndefined | JNull => true | _ => false end.

Definition coalesce (a b : JsValue) : JsValue := if nullish a then b else a.

End Js.

(** ** Completions and the handler monad *)

Definition cbind {A B : Type} (c : Completion A) (k : A -> Completion B)
  : Completion B :=
  match c with
  | Normal a => k a
  | Throw e => Throw e
  end.

(** Short-circuit [a && b] and [a || b] on boolean-valued operands whose
    evaluation may throw: [b] is evaluated only when [a] does not decide. *)
Definition cand (a b : Completion bool) : Completion bool :=
  cbind a (fun x => if x then b else Normal false).

Definition cor (a b : Completion bool) : Completion bool :=
  cbind a (fun x => if x then Normal true else b).

(** The paths requested from the upstream provider so far, oldest first. *)
Definition Log : Type := list string.

(** A handler body: it runs from a log of upstream requests and ends with a
    completion and the extended log. *)
Definition M (A : Type) : Type := Log -> Completion A * Log.

Definition ret {A : Type} (a : A) : M A := fun log => (Normal a, log).

Definition throw {A : Type} (e : Exn) : M A := fun log => (Throw e, log).

Definition bind {A B : Type} (m : M A) (k : A -> M B) : M B :=
  fun log =>
    match m log with
    | (Normal a, log') => k a log'
    | (Throw e, log') => (Throw e, log')
    end.

Definition lift {A : Type} (c : Completion A) : M A := fun log => (c, log).

(** [try { body } catch (error) { handler }]: an exception of the handler
    itself is not caught again. *)
Definition try_catch {A : Type} (body : M A) (handler : Exn -> M A) : M A :=
  fun log =>
    match body log with
    | (Normal a, log') => (Normal a, log')
    | (Throw e, log') => handler e log'
    end.

Declare Scope js_scope.
Delimit Scope js_scope with js.
Notation "x <- m ;; k" := (bind m (fun x => k))
  (at level 61, m at next level, right associativity) : js_scope.
Notation "x <~ c ;; k" := (cbind c (fun x => k))
  (at level 61, c at next level, right associativity) : js_scope.
Infix "&&&" := cand (at level 40, left associativity) : js_scope.
Infix "|||" := cor (at level 50, left associativity) : js_scope.
Local Open Scope js_scope.

(** ** The environment: upstream provider and wall clock *)

(** How one [axiosInstance.get] settles. *)
Inductive GetResult : Type :=
| Resolved (r : AxiosResponse)
| RejectedAxios (error : AxiosError)
| RejectedOther (what : string).

Record Env : Type := {
  upstream : string -> GetResult;   (* reply of the provider to a GET of a path *)
  clock : Z                         (* wall clock, milliseconds since the epoch *)
}.

(** [await this.axiosInstance.get(path)]: one request, recorded in the log. *)
Definition axios_get (env : Env) (path : string) : M AxiosResponse :=
  fun log =>
    (match upstream env path with
     | Resolved r => Normal r
     | RejectedAxios error => Throw (AxiosErr error)
     | RejectedOther what => Throw (ForeignError what)
     end, (log ++ [path])%list).

(** ** [src/types.ts] *)

Record StockData : Type := {
  symbol : JsValue;
  price : JsValue;
  open : JsValue;
  high : JsValue;
  low : JsValue;
  volume : JsValue;
  timestamp : JsValue
}.

(** Type guard for stock price arguments. *)
Definition isValidStockPriceArgs (args : JsValue) : Completion bool :=
  Normal (Js.typeof args =? "object") &&&
  Normal (negb (Js.is_null args)) &&&
  Js.has "symbol" args &&&
  (s <~ Js.get args "symbol" ;; Normal (Js.typeof s =? "string")) &&&
  ((d <~ Js.get args "date" ;; Normal (Js.is_undefined d)) |||
   (d <~ Js.get args "date" ;; Normal (Js.typeof d =? "string"))).

(** ** [src/index.ts] *)

Module API_CONFIG.
Definition BASE_URL : string := "https://api.polygon.io/v1".
Definition DEFAULT_SYMBOL : string := "AAPL".
Module ENDPOINTS.
Definition LAST_TRADE : string := "last/stocks".
Definition DAILY_OPEN_CLOSE : string := "open-close".
End ENDPOINTS.
End API_CONFIG.

Module Adapter.
Section Server.

(** Built-ins of the platform the handlers call: [Number::toString],
    [Date.prototype.toISOString] on the time value of [new Date()], and
    [JSON.stringify(stockData, null, 2)]. *)
Variable Number_toString : float -> string.
Variable Date_toISOString : Z -> string.
Variable JSON_stringify : StockData -> string.

(** ToString, the conversion a template literal applies to [${v}].  An
    array joins the conversions of its elements with commas ([null] and
    [undefined] elements give the empty string).  A plain object answers
    through [Object.prototype.toString], unless an own (never callable)
    [toString] property shadows it, in which case no primitive is found. *)
Fixpoint ToString (v : JsValue) : Completion string :=
  match v with
  | JUndefined => Normal "undefined"
  | JNull => Normal "null"
  | JBool true => Normal "true"
  | JBool false => Normal "false"
  | JNumber x => Normal (Number_toString x)
  | JString s => Normal s
  | JArray elems =>
      let element (e : JsValue) : Completion string :=
        if Js.nullish e then Normal "" else ToString e in
      (fix join (l : list JsValue) : Completion string :=
         match l with
         | [] => Normal ""
         | [e] => element e
         | e :: rest =>
             s <~ element e ;; r <~ join rest ;; Normal (s ++ "," ++ r)
         end) elems
  | JObject props =>
      match Js.lookup "toString" props with
      | None => Normal "[object Object]"
      | Some _ => Throw TypeError
      end
  end.

(** [new Date().toISOString()] *)
Definition now (env : Env) : JsValue := JString (Date_toISOString (clock env)).

(** The object literal of lines 108-116 (read-resource handler). *)
Definition resourceStockData (env : Env) (response : AxiosResponse)
  : Completion StockData :=
  symbol <~ Js.get (data response) "symbol" ;;
  close <~ Js.get (data response) "close" ;;
  open <~ Js.get (data response) "open" ;;
  high <~ Js.get (data response) "high" ;;
  low <~ Js.get (data response) "low" ;;
  volume <~ Js.get (data response) "volume" ;;
  Normal {| symbol := symbol; price := close; open := open; high := high;
            low := low; volume := volume; timestamp := now env |}.

(** The object literal of lines 191-199 (call-tool handler). *)
Definition toolStockData (env : Env) (response : AxiosResponse)
  : Completion StockData :=
  symbol <~ Js.get (data response) "symbol" ;;
  close <~ Js.get (data response) "close" ;;
  open <~ Js.get (data response) "open" ;;
  high <~ Js.get (data response) "high" ;;
  low <~ Js.get (data response) "low" ;;
  volume <~ Js.get (data response) "volume" ;;
  from <~ Js.get (data response) "from" ;;
  Normal {| symbol := symbol; price := close; open := open; high := high;
            low := low; volume := volume; timestamp := Js.or from (now env) |}.

(** [error.response?.data.message ?? error.message] *)
Definition upstreamMessage (error : AxiosError) : Completion JsValue :=
  match response error with
  | None => Normal (Js.coalesce JUndefined (JString (message error)))
  | Some r =>
      m <~ Js.get (data r) "message" ;;
      Normal (Js.coalesce m (JString (message error)))
  end.

(** [`Polygon API error: ${error.response?.data.message ?? error.message}`] *)
Definition polygonApiError (error : AxiosError) : Completion string :=
  m <~ upstreamMessage error ;;
  s <~ ToString m ;;
  Normal ("Polygon API error: " ++ s).

(** Handler of [ListResourcesRequestSchema]; it ignores its request. *)
Definition listResources (request : JsValue) : M JsValue :=
  ret (JObject [("resources", JArray [JObject [
    ("uri", JString ("stock://" ++ API_CONFIG.DEFAULT_SYMBOL ++ "/current"));
    ("name", JString ("Current stock price for " ++ API_CONFIG.DEFAULT_SYMBOL));
    ("mimeType", JString "application/json");
    ("description",
      JString "Real-time stock data including price, volume, and daily stats")]])]).

(** Handler of [ReadResourceRequestSchema]; [uri] is [request.params.uri]. *)
Definition readResource (env : Env) (uri : string) : M JsValue :=
  let symbol := API_CONFIG.DEFAULT_SYMBOL in
  if negb (uri =? "stock://" ++ symbol ++ "/current") then
    throw (McpError InvalidRequest ("Unknown resource: " ++ uri))
  else
    try_catch
      (response <- axios_get env
                     (API_CONFIG.ENDPOINTS.LAST_TRADE ++ "/" ++ symbol) ;;
       stockData <- lift (resourceStockData env response) ;;
       ret (JObject [("contents", JArray [JObject [
         ("uri", JString uri);
         ("mimeType", JString "application/json");
         ("text", JString (JSON_stringify stockData))]])]))
      (fun error =>
         match error with
         | AxiosErr e =>   (* axios.isAxiosError(error) *)
             text <- lift (polygonApiError e) ;;
             throw (McpError InternalError text)
         | _ => throw error
         end).

(** Handler of [ListToolsRequestSchema]; it ignores its request. *)
Definition listTools (request : JsValue) : M JsValue :=
  ret (JObject [("tools", JArray [JObject [
    ("name", JString "get_stock_price");
    ("description",
      JString "Get stock price information for a specific symbol");
    ("inputSchema", JObject [
      ("type", JString "object");
      ("properties", JObject [
        ("symbol", JObject [
          ("type", JString "string");
          ("description", JString "Stock symbol (e.g., AAPL)")]);
        ("date", JObject [
          ("type", JString "string");
          ("description",
            JString "Date in YYYY-MM-DD format (optional, defaults to latest)")])]);
      ("required", JArray [JString "symbol"; JString "date"])])]])]).

(** The path the call-tool handler requests (lines 183-187). *)
Definition toolEndpoint (symbol date : JsValue) : Completion string :=
  s <~ ToString symbol ;;
  let endpoint := API_CONFIG.ENDPOINTS.LAST_TRADE ++ "/" ++ s in
  if Js.truthy date then
    s' <~ ToString symbol ;;
    d <~ ToString date ;;
    Normal (API_CONFIG.ENDPOINTS.DAILY_OPEN_CLOSE ++ "/" ++ s' ++ "/" ++ d)
  else Normal endpoint.

(** Handler of [CallToolRequestSchema]; [name] is [request.params.name] and
    [arguments] is [request.params.arguments] ([undefined] when absent). *)
Definition callTool (env : Env) (name : string) (arguments : JsValue)
  : M JsValue :=
  if negb (name =? "get_stock_price") then
    throw (McpError MethodNotFound ("Unknown tool: " ++ name))
  else
    valid <- lift (isValidStockPriceArgs arguments) ;;
    if negb valid then
      throw (McpError InvalidParams "Invalid stock price arguments")
    else
      symbol <- lift (Js.get arguments "symbol") ;;
      date <- lift (Js.get arguments "date") ;;
      try_catch
        (endpoint <- lift (toolEndpoint symbol date) ;;
         response <- axios_get env endpoint ;;
         stockData <- lift (toolStockData env response) ;;
         ret (JObject [("content", JArray [JObject [
           ("type", JString "text");
           ("text", JString (JSON_stringify stockData))]])]))
        (fun error =>
           match error with
           | AxiosErr e =>   (* axios.isAxiosError(error) *)
               text <- lift (polygonApiError e) ;;
               ret (JObject [
                 ("content", JArray [JObject [
                   ("type", JString "text");
                   ("text", JString text)]]);
                 ("isError", JBool true)])
           | _ => throw error
           end).

End Server.
End Adapter.
Import Adapter.

(** ** Vocabulary of the specification *)

(** The one readable resource, [stock://{DEFAULT_SYMBOL}/current]. *)
Definition resourceUri : string := "stock://AAPL/current".

(** The two upstream endpoints: "last trade" and "daily open/close". *)
Definition lastTradePath (sym : string) : string := "last/stocks/" ++ sym.

Definition openClosePath (sym day : string) : string :=
  "open-close/" ++ sym ++ "/" ++ day.

(** Result envelopes. *)
Definition resourceResult (uri text : string) : JsValue :=
  JObject [("contents", JArray [JObject [
    ("uri", JString uri);
    ("mimeType", JString "application/json");
    ("text", JString text)]])].

Definition textEntry (text : string) : JsValue :=
  JObject [("type", JString "text"); ("text", JString text)].

Definition toolResult (text : string) : JsValue :=
  JObject [("content", JArray [textEntry text])].

Definition toolErrorResult (text : string) : JsValue :=
  JObject [("content", JArray [textEntry text]); ("isError", JBool true)].

(** The path a lookup with symbol [sym] and date value [date] is sent to:
    "daily open/close" for a non-empty date string, "last trade" otherwise. *)
Definition selectedPath (sym : string) (date : JsValue) : string :=
  match date with
  | JString day => if day =? "" then lastTradePath sym else openClosePath sym day
  | _ => lastTradePath sym
  end.

(** The LookupArgs shape: a non-null object with a string [symbol] whose
    [date] is absent or a string.  [sym] is the symbol and [date] the value
    read for [date]. *)
Definition LookupArgs (args : JsValue) (sym : string) (date : JsValue) : Prop :=
  exists props,
    args = JObject props /\
    Js.lookup "symbol" props = Some (JString sym) /\
    Js.get args "date" = Normal date /\
    (date = JUndefined \/ exists day, date = JString day).

(** The ways of failing the LookupArgs shape check. *)
Inductive ShapeViolation (args : JsValue) : Prop :=
| NotAnObject : Js.typeof args <> "object" -> ShapeViolation args
| NullArgs : args = JNull -> ShapeViolation args
| MissingSymbol : Js.has "symbol" args = Normal false -> ShapeViolation args
| SymbolNotString (v : JsValue) :
    Js.get args "symbol" = Normal v -> Js.typeof v <> "string" ->
    ShapeViolation args
| DateNotString (d : JsValue) :
    Js.get args "date" = Normal d -> d <> JUndefined ->
    Js.typeof d <> "string" -> ShapeViolation args.

(** ** Sample inputs *)

(** Fixed sample behaviours of the built-ins, to run the handlers on concrete
    inputs; every theorem below holds for all behaviours. *)
Definition sampleNumberToString (x : float) : string := "150.25".

Definition sampleToISOString (t : Z) : string := "2024-01-08T14:30:00.000Z".

Definition sampleStringify (sd : StockData) : string :=
  match symbol sd with JString s => "{ symbol: " ++ s ++ " }" | _ => "{}" end.

(** A daily open/close reply of the provider. *)
Definition sampleQuote : AxiosResponse :=
  {| data := JObject [
       ("status", JString "OK");
       ("from", JString "2024-01-05");
       ("symbol", JString "AAPL");
       ("open", JNumber 182.0%float);
       ("high", JNumber 182.75%float);
       ("low", JNumber 180.25%float);
       ("close", JNumber 181.5%float);
       ("volume", JNumber 62303300%float);
       ("afterHours", JNumber 181.0%float);
       ("preMarket", JNumber 182.5%float)] |}.

(** A provider that answers every path with [sampleQuote]. *)
Definition sampleEnv : Env :=
  {| upstream := fun _ => Resolved sampleQuote; clock := 1704724200000 |}.

(** A provider whose every reply is an HTTP error with the JSON body [null]. *)
Definition nullBodyError : AxiosError :=
  {| message := "Request failed with status code 500";
     response := Some {| data := JNull |} |}.

Definition nullBodyEnv : Env :=
  {| upstream := fun _ => RejectedAxios nullBodyError; clock := 1704724200000 |}.

(** A provider whose every reply is the error body [{message: "rate limited"}]. *)
Definition rateLimited : AxiosError :=
  {| message := "Request failed with status code 429";
     response := Some {| data := JObject [("message", JString "rate limited")] |} |}.

Definition rateLimitedEnv : Env :=
  {| upstream := fun _ => RejectedAxios rateLimited; clock := 1704724200000 |}.

(** A last-trade reply without [from], closing below zero. *)
Definition negativeQuote : AxiosResponse :=
  {| data := JObject [
       ("symbol", JString "AAPL");
       ("open", JNumber 0%float);
       ("high", JNumber 1.5%float);
       ("low", JNumber (-4)%float);
       ("close", JNumber (-3.5)%float);
       ("volume", JNumber 0%float)] |}.

Definition negativeEnv : Env :=
  {| upstream := fun _ => Resolved negativeQuote; clock := 1704724200000 |}.

(** Tool arguments. *)
Definition aaplLatest : JsValue := JObject [("symbol", JString "AAPL")].

Definition msftOnDay : JsValue :=
  JObject [("symbol", JString "MSFT"); ("date", JString "2024-01-05")].

Definition aaplEmptyDate : JsValue :=
  JObject [("symbol", JString "AAPL"); ("date", JString "")].

Definition emptySymbol : JsValue := JObject [("symbol", JString "")].

Definition numericSymbol : JsValue := JObject [("symbol", JNumber 42%float)].

(** The handlers run with the sample built-ins. *)
Definition sampleReadResource : Env -> string -> M JsValue :=
  readResource sampleNumberToString sampleToISOString sampleStringify.

Definition sampleCallTool : Env -> string -> JsValue -> M JsValue :=
  callTool sampleNumberToString sampleToISOString sampleStringify.

(** Further providers: one that fails outside the HTTP client, one that
    fails before any reply arrives, one that replies with the JSON body
    [null], and one that replies with a page of text. *)
Definition brokenEnv : Env :=
  {| upstream := fun _ => RejectedOther "socket closed"; clock := 1704724200000 |}.

Definition networkError : AxiosError :=
  {| message := "Network Error"; response := None |}.

Definition offlineEnv : Env :=
  {| upstream := fun _ => RejectedAxios networkError; clock := 1704724200000 |}.

Definition nullReplyEnv : Env :=
  {| upstream := fun _ => Resolved {| data := JNull |}; clock := 1704724200000 |}.

Definition textReply : AxiosResponse := {| data := JString "<html></html>" |}.

Definition textReplyEnv : Env :=
  {| upstream := fun _ => Resolved textReply; clock := 1704724200000 |}.

(** Arguments that carry a property the handler never reads. *)
Definition aaplWithLimit : JsValue :=
  JObject [("limit", JNumber 10%float); ("symbol", JString "AAPL")].

(** * Properties *)

Section Properties.

Variable Number_toString : float -> string.
Variable Date_toISOString : Z -> string.
Variable JSON_stringify : StockData -> string.

Local Abbreviation readResource :=
  (readResource Number_toString Date_toISOString JSON_stringify).
Local Abbreviation callTool :=
  (callTool Number_toString Date_toISOString JSON_stringify).
Local Abbreviation resourceStockData := (resourceStockData Date_toISOString).
Local Abbreviation toolStockData := (toolStockData Date_toISOString).
Local Abbreviation polygonApiError := (polygonApiError Number_toString).
Local Abbreviation toolEndpoint := (toolEndpoint Number_toString).
Local Abbreviation now := (now Date_toISOString).

(** *** The type guard *)

Lemma typeof_string (v : JsValue) :
  (Js.typeof v =? "string") = true <-> exists s, v = JString s.
Proof.
  split.
  - destruct v; simpl; try discriminate. intros _. now exists s.
  - intros [s ->]. reflexivity.
Qed.

Lemma typeof_not_string (v : JsValue) :
  Js.typeof v <> "string" -> (Js.typeof v =? "string") = false.
Proof. intros H. now apply String.eqb_neq. Qed.

(** The guard never throws. *)
Lemma isValidStockPriceArgs_total (args : JsValue) :
  exists b, isValidStockPriceArgs args = Normal b.
Proof.
  unfold isValidStockPriceArgs, cand, cor.
  destruct args; simpl; eauto.
  destruct (Js.lookup "symbol" props) as [v|]; simpl; eauto.
  destruct (Js.typeof v =? "string"); simpl; eauto.
  destruct (Js.lookup "date" props) as [d|]; simpl; eauto.
  destruct (Js.is_undefined d); simpl; eauto.
Qed.

(** It accepts exactly the LookupArgs shape. *)
Lemma isValidStockPriceArgs_accepts (args : JsValue) :
  isValidStockPriceArgs args = Normal true <->
  exists sym date, LookupArgs args sym date.
Proof.
  split.
  - unfold isValidStockPriceArgs, cand, cor.
    destruct args; simpl; try discriminate.
    destruct (Js.lookup "symbol" props) as [v|] eqn:Es; simpl; try discriminate.
    destruct (Js.typeof v =? "string") eqn:Ev; simpl; try discriminate.
    apply typeof_string in Ev as [sym ->].
    destruct (Js.lookup "date" props) as [d|] eqn:Ed; simpl.
    + destruct d; simpl; try discriminate; intros _; exists sym.
      * exists JUndefined, props. simpl. rewrite Ed. auto.
      * exists (JString s), props. simpl. rewrite Ed. eauto 6.
    + intros _. exists sym, JUndefined, props. simpl. rewrite Ed. auto.
  - intros (sym & date & props & -> & Es & Ed & Hd).
    unfold isValidStockPriceArgs, cand, cor. simpl in *. rewrite Es. simpl.
    destruct (Js.lookup "date" props) as [d|]; simpl.
    + injection Ed as ->. destruct Hd as [-> | [day ->]]; reflexivity.
    + reflexivity.
Qed.

(** It rejects every violation of the shape. *)
Lemma isValidStockPriceArgs_rejects (args : JsValue) :
  ShapeViolation args -> isValidStockPriceArgs args = Normal false.
Proof.
  intros V. unfold isValidStockPriceArgs, cand, cor.
  destruct V as [H | H | H | v Hv Ht | d Hd Hu Ht].
  - destruct args; simpl in *; try reflexivity; congruence.
  - subst. reflexivity.
  - destruct args; simpl in *; try reflexivity.
    destruct (Js.lookup "symbol" props); [discriminate | reflexivity].
  - destruct args; simpl in *; try reflexivity.
    destruct (Js.lookup "symbol" props) as [w|]; simpl; [|reflexivity].
    injection Hv as ->. now rewrite (typeof_not_string _ Ht).
  - destruct args; simpl in *; try reflexivity.
    destruct (Js.lookup "symbol" props) as [w|]; simpl; [|reflexivity].
    destruct (Js.typeof w =? "string"); simpl; [|reflexivity].
    destruct (Js.lookup "date" props) as [x|]; simpl in *.
    + injection Hd as ->. rewrite (typeof_not_string _ Ht).
      destruct d; simpl; congruence.
    + congruence.
Qed.

(** Conversely, whatever it rejects violates the shape. *)
Lemma isValidStockPriceArgs_rejects_only (args : JsValue) :
  isValidStockPriceArgs args = Normal false -> ShapeViolation args.
Proof.
  unfold isValidStockPriceArgs, cand, cor.
  destruct args; simpl; intros H;
    try (apply NotAnObject; simpl; discriminate);
    try (now apply NullArgs);
    try (now apply MissingSymbol).
  destruct (Js.lookup "symbol" props) as [v|] eqn:Es; simpl in H.
  - destruct (Js.typeof v =? "string") eqn:Ev; simpl in H.
    + destruct (Js.lookup "date" props) as [d|] eqn:Ed; simpl in H.
      * apply (DateNotString _ d); simpl.
        -- now rewrite Ed.
        -- intros ->. discriminate.
        -- destruct d; simpl in *; discriminate.
      * discriminate.
    + apply (SymbolNotString _ v); simpl.
      * now rewrite Es.
      * now apply String.eqb_neq.
  - apply MissingSymbol. simpl. now rewrite Es.
Qed.

(** *** Running the handlers *)

Lemma get_defined (v : JsValue) (k : string) :
  Js.nullish v = false -> exists x, Js.get v k = Normal x.
Proof.
  destruct v; simpl; try discriminate; eauto.
  destruct (Js.lookup k props); eauto.
Qed.

Lemma get_throws (v : JsValue) (k : string) :
  Js.nullish v = true -> Js.get v k = Throw TypeError.
Proof. destruct v; simpl; try discriminate; reflexivity. Qed.

Lemma toolEndpoint_selected (sym : string) (date : JsValue) :
  date = JUndefined \/ (exists day, date = JString day) ->
  toolEndpoint (JString sym) date = Normal (selectedPath sym date).
Proof.
  intros [-> | [day ->]]; [reflexivity|].
  unfold toolEndpoint, selectedPath. simpl.
  destruct (day =? ""); reflexivity.
Qed.

(** Both object literals are built exactly when the reply body is neither
    [null] nor [undefined]; otherwise the first property read throws. *)
Lemma resourceStockData_defined (env : Env) (r : AxiosResponse) :
  Js.nullish (data r) = false ->
  exists sd, resourceStockData env r = Normal sd.
Proof.
  intros H. unfold Adapter.resourceStockData.
  destruct (data r); simpl in *; try discriminate; eauto.
  repeat match goal with |- context [Js.lookup ?k ?p] =>
    destruct (Js.lookup k p) end; simpl; eauto.
Qed.

Lemma toolStockData_defined (env : Env) (r : AxiosResponse) :
  Js.nullish (data r) = false ->
  exists sd, toolStockData env r = Normal sd.
Proof.
  intros H. unfold Adapter.toolStockData.
  destruct (data r); simpl in *; try discriminate; eauto.
  repeat match goal with |- context [Js.lookup ?k ?p] =>
    destruct (Js.lookup k p) end; simpl; eauto.
Qed.

Lemma resourceStockData_throws (env : Env) (r : AxiosResponse) (e : Exn) :
  resourceStockData env r = Throw e -> e = TypeError.
Proof.
  unfold Adapter.resourceStockData.
  destruct (data r); simpl; try congruence;
  repeat match goal with |- context [Js.lookup ?k ?p] =>
    destruct (Js.lookup k p) end; simpl; congruence.
Qed.

Lemma toolStockData_throws (env : Env) (r : AxiosResponse) (e : Exn) :
  toolStockData env r = Throw e -> e = TypeError.
Proof.
  unfold Adapter.toolStockData.
  destruct (data r); simpl; try congruence;
  repeat match goal with |- context [Js.lookup ?k ?p] =>
    destruct (Js.lookup k p) end; simpl; congruence.
Qed.

(** A read of the one resource: one request to "last trade" for AAPL, then
    the outcome follows from how that request settles. *)
Lemma readResource_run (env : Env) (log : Log) :
  readResource env resourceUri log =
  (match upstream env (lastTradePath "AAPL") with
   | Resolved r =>
       match resourceStockData env r with
       | Normal sd => Normal (resourceResult resourceUri (JSON_stringify sd))
       | Throw _ => Throw TypeError
       end
   | RejectedAxios error =>
       match polygonApiError error with
       | Normal text => Throw (McpError InternalError text)
       | Throw e => Throw e
       end
   | RejectedOther what => Throw (ForeignError what)
   end, (log ++ [lastTradePath "AAPL"])%list).
Proof.
  unfold Adapter.readResource, try_catch, bind, axios_get, lift, throw, ret.
  change (API_CONFIG.ENDPOINTS.LAST_TRADE ++ "/" ++ API_CONFIG.DEFAULT_SYMBOL)
    with (lastTradePath "AAPL").
  change (resourceUri =? "stock://" ++ API_CONFIG.DEFAULT_SYMBOL ++ "/current")
    with true.
  cbv beta iota zeta delta [negb].
  destruct (upstream env (lastTradePath "AAPL")) as [r | error | what].
  - destruct (resourceStockData env r) as [sd | e] eqn:E.
    + reflexivity.
    + now rewrite (resourceStockData_throws _ _ _ E).
  - destruct (polygonApiError error); reflexivity.
  - reflexivity.
Qed.

(** A tool call with well-shaped arguments: one request to the selected
    path, then the outcome follows from how that request settles. *)
Lemma callTool_run (env : Env) (args : JsValue) (sym : string)
      (date : JsValue) (log : Log) :
  LookupArgs args sym date ->
  callTool env "get_stock_price" args log =
  (match upstream env (selectedPath sym date) with
   | Resolved r =>
       match toolStockData env r with
       | Normal sd => Normal (toolResult (JSON_stringify sd))
       | Throw _ => Throw TypeError
       end
   | RejectedAxios error =>
       match polygonApiError error with
       | Normal text => Normal (toolErrorResult text)
       | Throw e => Throw e
       end
   | RejectedOther what => Throw (ForeignError what)
   end, (log ++ [selectedPath sym date])%list).
Proof.
  intros L.
  assert (V : isValidStockPriceArgs args = Normal true)
    by (apply isValidStockPriceArgs_accepts; eauto).
  destruct L as (props & -> & Es & Ed & Hd).
  unfold Adapter.callTool, try_catch, bind, lift, throw, ret.
  change ("get_stock_price" =? "get_stock_price") with true.
  cbv beta iota zeta delta [negb].
  rewrite V. cbv beta iota zeta delta [negb].
  rewrite Ed. simpl Js.get. rewrite Es.
  rewrite (toolEndpoint_selected sym date Hd).
  unfold axios_get.
  destruct (upstream env (selectedPath sym date)) as [r | error | what].
  - destruct (toolStockData env r) as [sd | e] eqn:E.
    + reflexivity.
    + now rewrite (toolStockData_throws _ _ _ E).
  - destruct (polygonApiError error); reflexivity.
  - reflexivity.
Qed.

(** The three ways a request is turned away before any upstream call. *)
Lemma readResource_other_uri (env : Env) (uri : string) (log : Log) :
  (uri =? "stock://AAPL/current") = false ->
  readResource env uri log =
    (Throw (McpError InvalidRequest ("Unknown resource: " ++ uri)), log).
Proof.
  intros H. unfold Adapter.readResource.
  change ("stock://" ++ API_CONFIG.DEFAULT_SYMBOL ++ "/current")
    with "stock://AAPL/current".
  now rewrite H.
Qed.

Lemma callTool_unknown_tool (env : Env) (name : string) (args : JsValue)
      (log : Log) :
  name <> "get_stock_price" ->
  callTool env name args log =
    (Throw (McpError MethodNotFound ("Unknown tool: " ++ name)), log).
Proof.
  intros H. unfold Adapter.callTool. apply String.eqb_neq in H. now rewrite H.
Qed.

Lemma callTool_guard_rejects (env : Env) (args : JsValue) (log : Log) :
  isValidStockPriceArgs args = Normal false ->
  callTool env "get_stock_price" args log =
    (Throw (McpError InvalidParams "Invalid stock price arguments"), log).
Proof.
  intros V. unfold Adapter.callTool, bind, lift, throw.
  change ("get_stock_price" =? "get_stock_price") with true.
  cbv beta iota zeta delta [negb].
  now rewrite V.
Qed.

(** Converting a value to a string can only fail with a [TypeError]. *)
Lemma ToString_throws (v : JsValue) (e : Exn) :
  ToString Number_toString v = Throw e -> e = TypeError.
Proof.
  revert e. induction v as [| | b | x | s | elems IH | props _]
    using JsValue_nested_ind; intros e; simpl; try discriminate.
  - destruct b; discriminate.
  - induction IH as [| v rest Hv _ IHrest]; [discriminate|].
    destruct rest as [| w rest'].
    + destruct (Js.nullish v); [discriminate | apply Hv].
    + unfold cbind at 1.
      destruct (if Js.nullish v then Normal "" else ToString Number_toString v)
        as [s | e'] eqn:E.
      * unfold cbind at 1. intros H.
        match type of H with
        | match ?j with _ => _ end = _ => destruct j as [t | e''] eqn:Ej
        end; [discriminate|].
        injection H as <-. now apply IHrest.
      * intros H. injection H as <-.
        destruct (Js.nullish v); [discriminate | now apply Hv].
  - destruct (Js.lookup "toString" props); congruence.
Qed.

Lemma upstreamMessage_throws (error : AxiosError) (e : Exn) :
  upstreamMessage error = Throw e -> e = TypeError.
Proof.
  unfold upstreamMessage, cbind. destruct (response error) as [r|]; [|discriminate].
  destruct (data r); simpl; try congruence.
  destruct (Js.lookup "message" props); discriminate.
Qed.

Lemma polygonApiError_throws (error : AxiosError) (e : Exn) :
  polygonApiError error = Throw e -> e = TypeError.
Proof.
  unfold Adapter.polygonApiError, cbind.
  destruct (upstreamMessage error) as [m | e'] eqn:E.
  - destruct (ToString Number_toString m) as [s | e''] eqn:Es; [discriminate|].
    intros H. injection H as <-. exact (ToString_throws _ _ Es).
  - intros H. injection H as <-. exact (upstreamMessage_throws _ _ E).
Qed.

(** *** Rejected requests *)

(** C6. A read-resource request whose URI is not exactly
    [stock://AAPL/current] (the default symbol being AAPL) fails with
    [InvalidRequest] and issues no upstream call: the log of requests is
    returned unchanged.  The test is string equality, so no pattern or other
    symbol is accepted. *)
Theorem readResource_unknown_uri (env : Env) (uri : string) (log : Log) :
  uri <> "stock://AAPL/current" ->
  API_CONFIG.DEFAULT_SYMBOL = "AAPL" /\
  readResource env uri log =
    (Throw (McpError InvalidRequest ("Unknown resource: " ++ uri)), log).
Proof.
  intros H. split; [reflexivity|].
  apply readResource_other_uri. now apply String.eqb_neq.
Qed.

(** C5. A [get_stock_price] call whose arguments fail the LookupArgs shape
    check (not a non-null object, [symbol] missing, [symbol] not a string, or
    [date] present but not a string) fails with [InvalidParams] and issues no
    upstream call. *)
Theorem callTool_invalid_params (env : Env) (args : JsValue) (log : Log) :
  ShapeViolation args ->
  callTool env "get_stock_price" args log =
    (Throw (McpError InvalidParams "Invalid stock price arguments"), log).
Proof.
  intros V. apply callTool_guard_rejects.
  now apply isValidStockPriceArgs_rejects.
Qed.

(** *** The tool catalog *)

(** C9. For every request and whatever was requested before, list-tools
    returns one fixed catalog of a single tool: its name is [get_stock_price],
    it has a description string, and its input schema declares exactly the two
    properties [symbol] and [date], both of type string, and lists both in
    [required].  It issues no upstream call and reads neither the provider nor
    the clock. *)
Theorem listTools_catalog :
  exists description symbolDoc dateDoc : string,
  forall (request : JsValue) (log : Log),
    listTools request log =
    (Normal (JObject [("tools", JArray [JObject [
       ("name", JString "get_stock_price");
       ("description", JString description);
       ("inputSchema", JObject [
          ("type", JString "object");
          ("properties", JObject [
             ("symbol", JObject [("type", JString "string");
                                 ("description", JString symbolDoc)]);
             ("date", JObject [("type", JString "string");
                               ("description", JString dateDoc)])]);
          ("required", JArray [JString "symbol"; JString "date"])])]])]),
     log).
Proof. do 3 eexists. intros request log. reflexivity. Qed.

(** *** Endpoint selection *)

(** C2 (amended). A [get_stock_price] call with well-shaped arguments issues
    exactly one upstream request, however that request settles: to the "last
    trade" endpoint of the symbol when [date] is absent or the empty string,
    and to the "daily open/close" endpoint of the symbol and date when [date]
    is a non-empty string. *)
Theorem callTool_one_request (env : Env) (args : JsValue) (sym : string)
        (date : JsValue) (log : Log) :
  LookupArgs args sym date ->
  exists outcome path,
    callTool env "get_stock_price" args log = (outcome, (log ++ [path])%list) /\
    (date = JUndefined \/ date = JString "" -> path = "last/stocks/" ++ sym) /\
    (forall day, date = JString day -> day <> "" ->
                 path = "open-close/" ++ sym ++ "/" ++ day).
Proof.
  intros L. rewrite (callTool_run env args sym date log L).
  eexists _, _. split; [reflexivity|]. split.
  - intros [-> | ->]; reflexivity.
  - intros day -> Hday. simpl. apply String.eqb_neq in Hday. now rewrite Hday.
Qed.

(** C8 (amended). The shape check asks only that [symbol] be present and be a
    string.  Arguments whose [symbol] is the empty string, with [date] absent
    or a string, pass it, and the call issues its one upstream request (to
    [last/stocks/] or [open-close//{date}]) without ever ending in a protocol
    error such as [InvalidParams]. *)
Theorem callTool_empty_symbol (env : Env) (args : JsValue) (date : JsValue)
        (log : Log) :
  LookupArgs args "" date ->
  isValidStockPriceArgs args = Normal true /\
  exists outcome,
    callTool env "get_stock_price" args log =
      (outcome, (log ++ [selectedPath "" date])%list) /\
    forall code msg, outcome <> Throw (McpError code msg).
Proof.
  intros L. split.
  - apply isValidStockPriceArgs_accepts. eauto.
  - rewrite (callTool_run env args "" date log L). eexists. split; [reflexivity|].
    intros code msg.
    destruct (upstream env (selectedPath "" date)) as [r | error | what].
    + destruct (toolStockData env r); discriminate.
    + destruct (polygonApiError error) as [text | e] eqn:E; [discriminate|].
      rewrite (polygonApiError_throws _ _ E). discriminate.
    + discriminate.
Qed.

(** *** What a normal return means *)

(** X8. A read returns normally only for the one resource, after its one
    request resolved with a readable body; the result is the single content
    entry that echoes the URI, with MIME type [application/json] and the
    serialized StockData as text. *)
Lemma readResource_returns (env : Env) (uri : string) (log log' : Log)
      (res : JsValue) :
  readResource env uri log = (Normal res, log') ->
  uri = "stock://AAPL/current" /\
  log' = (log ++ [lastTradePath "AAPL"])%list /\
  exists r sd,
    upstream env (lastTradePath "AAPL") = Resolved r /\
    resourceStockData env r = Normal sd /\
    res = resourceResult uri (JSON_stringify sd).
Proof.
  destruct (uri =? "stock://AAPL/current") eqn:E.
  - apply String.eqb_eq in E. subst uri.
    change "stock://AAPL/current" with resourceUri.
    rewrite readResource_run.
    destruct (upstream env (lastTradePath "AAPL")) as [r | error | what].
    + destruct (resourceStockData env r) as [sd | e] eqn:Hsd; [|discriminate].
      intros H. injection H as <- <-. eauto 7.
    + destruct (polygonApiError error); discriminate.
    + discriminate.
  - rewrite (readResource_other_uri env uri log E). discriminate.
Qed.

(** X9. A tool call returns normally only for [get_stock_price] with
    well-shaped arguments, after its one request: either it resolved with a
    readable body and the result is the serialized StockData, or it failed
    with a transport error and the result is the flagged error text. *)
Lemma callTool_returns (env : Env) (name : string) (args : JsValue)
      (log log' : Log) (res : JsValue) :
  callTool env name args log = (Normal res, log') ->
  name = "get_stock_price" /\
  exists sym date,
    LookupArgs args sym date /\
    log' = (log ++ [selectedPath sym date])%list /\
    ((exists r sd,
        upstream env (selectedPath sym date) = Resolved r /\
        toolStockData env r = Normal sd /\
        res = toolResult (JSON_stringify sd)) \/
     (exists error text,
        upstream env (selectedPath sym date) = RejectedAxios error /\
        polygonApiError error = Normal text /\
        res = toolErrorResult text)).
Proof.
  destruct (String.eqb_spec name "get_stock_price") as [-> | Hname].
  - destruct (isValidStockPriceArgs_total args) as [[|] V].
    + apply isValidStockPriceArgs_accepts in V as (sym & date & L).
      rewrite (callTool_run env args sym date log L). intros H.
      split; [reflexivity|]. exists sym, date. split; [exact L|].
      destruct (upstream env (selectedPath sym date)) as [r | error | what].
      * destruct (toolStockData env r) as [sd | e] eqn:Hsd; [|discriminate].
        injection H as <- <-. split; [reflexivity|]. left. eauto.
      * destruct (polygonApiError error) as [text | e] eqn:Ht; [|discriminate].
        injection H as <- <-. split; [reflexivity|]. right. eauto.
      * discriminate.
    + rewrite (callTool_guard_rejects env args log V). discriminate.
  - rewrite (callTool_unknown_tool env name args log Hname). discriminate.
Qed.

(** *** The StockData mapping *)

Lemma resourceStockData_fields (env : Env) (r : AxiosResponse) (sd : StockData) :
  resourceStockData env r = Normal sd ->
  Js.get (data r) "symbol" = Normal (symbol sd) /\
  Js.get (data r) "close" = Normal (price sd) /\
  Js.get (data r) "open" = Normal (open sd) /\
  Js.get (data r) "high" = Normal (high sd) /\
  Js.get (data r) "low" = Normal (low sd) /\
  Js.get (data r) "volume" = Normal (volume sd) /\
  timestamp sd = now env.
Proof.
  unfold Adapter.resourceStockData, cbind.
  repeat match goal with |- context [Js.get ?v ?k] =>
    destruct (Js.get v k); try discriminate end.
  intros H. injection H as <-. simpl. repeat split.
Qed.

Lemma toolStockData_fields (env : Env) (r : AxiosResponse) (sd : StockData) :
  toolStockData env r = Normal sd ->
  Js.get (data r) "symbol" = Normal (symbol sd) /\
  Js.get (data r) "close" = Normal (price sd) /\
  Js.get (data r) "open" = Normal (open sd) /\
  Js.get (data r) "high" = Normal (high sd) /\
  Js.get (data r) "low" = Normal (low sd) /\
  Js.get (data r) "volume" = Normal (volume sd) /\
  exists from, Js.get (data r) "from" = Normal from /\
               timestamp sd = Js.or from (now env).
Proof.
  unfold Adapter.toolStockData, cbind.
  repeat match goal with |- context [Js.get ?v ?k] =>
    destruct (Js.get v k); try discriminate end.
  intros H. injection H as <-. simpl. repeat split. eauto.
Qed.

Lemma get_normal_not_nullish (v : JsValue) (k : string) (x : JsValue) :
  Js.get v k = Normal x -> Js.nullish v = false.
Proof. destruct v; simpl; congruence. Qed.

(** C4. On a successful lookup through either capability (the upstream
    request resolves with a reply [r] whose body can be read), the handler
    returns the serialization of a StockData whose [price] is the reply's
    [close] field as it is: any value, so any number, zero and negative
    included, with no clamping or transformation. *)
Theorem price_is_close (env : Env) (r : AxiosResponse) (close : JsValue) :
  Js.get (data r) "close" = Normal close ->
  (forall log,
     upstream env (lastTradePath "AAPL") = Resolved r ->
     exists sd,
       readResource env "stock://AAPL/current" log =
         (Normal (resourceResult "stock://AAPL/current" (JSON_stringify sd)),
          (log ++ [lastTradePath "AAPL"])%list) /\
       resourceStockData env r = Normal sd /\
       price sd = close) /\
  (forall args sym date log,
     LookupArgs args sym date ->
     upstream env (selectedPath sym date) = Resolved r ->
     exists sd,
       callTool env "get_stock_price" args log =
         (Normal (toolResult (JSON_stringify sd)),
          (log ++ [selectedPath sym date])%list) /\
       toolStockData env r = Normal sd /\
       price sd = close).
Proof.
  intros Hc. pose proof (get_normal_not_nullish _ _ _ Hc) as Hn. split.
  - intros log Hu.
    destruct (resourceStockData_defined env r Hn) as [sd Hsd].
    exists sd. split; [|split; [exact Hsd|]].
    + change "stock://AAPL/current" with resourceUri.
      now rewrite readResource_run, Hu, Hsd.
    + apply resourceStockData_fields in Hsd as (_ & Hp & _). congruence.
  - intros args sym date log L Hu.
    destruct (toolStockData_defined env r Hn) as [sd Hsd].
    exists sd. split; [|split; [exact Hsd|]].
    + now rewrite (callTool_run env args sym date log L), Hu, Hsd.
    + apply toolStockData_fields in Hsd as (_ & Hp & _). congruence.
Qed.

(** Either both object literals are built, or both fail on the first
    property read. *)
Lemma stock_data_both_or_neither (env : Env) (r : AxiosResponse) :
  (exists sd1 sd2, resourceStockData env r = Normal sd1 /\
                   toolStockData env r = Normal sd2) \/
  (resourceStockData env r = Throw TypeError /\
   toolStockData env r = Throw TypeError).
Proof.
  destruct (Js.nullish (data r)) eqn:Hn.
  - right. unfold Adapter.resourceStockData, Adapter.toolStockData.
    now rewrite (get_throws _ "symbol" Hn).
  - left. destruct (resourceStockData_defined env r Hn) as [sd1 H1].
    destruct (toolStockData_defined env r Hn) as [sd2 H2]. eauto.
Qed.

(** C10. For one upstream reply whose body can be read, the StockData built by
    the read-resource handler and the one built by the call-tool handler have
    the same [symbol], [price], [open], [high], [low] and [volume]; only
    [timestamp] may differ.  Both handlers return the serialization of their
    StockData when the provider answers their request with that reply. *)
Theorem stock_data_paths_agree (env : Env) (r : AxiosResponse) :
  Js.nullish (data r) = false ->
  exists sd1 sd2,
    resourceStockData env r = Normal sd1 /\
    toolStockData env r = Normal sd2 /\
    symbol sd1 = symbol sd2 /\ price sd1 = price sd2 /\
    open sd1 = open sd2 /\ high sd1 = high sd2 /\
    low sd1 = low sd2 /\ volume sd1 = volume sd2 /\
    (forall log,
       upstream env (lastTradePath "AAPL") = Resolved r ->
       readResource env "stock://AAPL/current" log =
         (Normal (resourceResult "stock://AAPL/current" (JSON_stringify sd1)),
          (log ++ [lastTradePath "AAPL"])%list)) /\
    (forall args sym date log,
       LookupArgs args sym date ->
       upstream env (selectedPath sym date) = Resolved r ->
       callTool env "get_stock_price" args log =
         (Normal (toolResult (JSON_stringify sd2)),
          (log ++ [selectedPath sym date])%list)).
Proof.
  intros Hn.
  destruct (resourceStockData_defined env r Hn) as [sd1 H1].
  destruct (toolStockData_defined env r Hn) as [sd2 H2].
  exists sd1, sd2.
  pose proof (resourceStockData_fields _ _ _ H1) as (A1 & A2 & A3 & A4 & A5 & A6 & _).
  pose proof (toolStockData_fields _ _ _ H2) as (B1 & B2 & B3 & B4 & B5 & B6 & _).
  repeat split; try congruence.
  - intros log Hu. change "stock://AAPL/current" with resourceUri.
    now rewrite readResource_run, Hu, H1.
  - intros args sym date log L Hu.
    now rewrite (callTool_run env args sym date log L), Hu, H2.
Qed.

(** C1 (amended). On a successful lookup through the [get_stock_price] tool,
    [StockData.timestamp] is the reply's [from] field whenever that field is
    truthy, in particular whenever it is a non-empty string, and is the
    ISO-8601 rendering of the wall clock at call time when [from] is absent,
    the empty string or otherwise falsy.  On a successful read of the
    resource, [timestamp] is always the rendering of the wall clock, whatever
    [from] holds. *)
Theorem timestamp_source (env : Env) (r : AxiosResponse) (from : JsValue) :
  Js.get (data r) "from" = Normal from ->
  (forall log,
     upstream env (lastTradePath "AAPL") = Resolved r ->
     exists sd,
       readResource env "stock://AAPL/current" log =
         (Normal (resourceResult "stock://AAPL/current" (JSON_stringify sd)),
          (log ++ [lastTradePath "AAPL"])%list) /\
       resourceStockData env r = Normal sd /\
       timestamp sd = JString (Date_toISOString (clock env))) /\
  (forall args sym date log,
     LookupArgs args sym date ->
     upstream env (selectedPath sym date) = Resolved r ->
     exists sd,
       callTool env "get_stock_price" args log =
         (Normal (toolResult (JSON_stringify sd)),
          (log ++ [selectedPath sym date])%list) /\
       toolStockData env r = Normal sd /\
       (forall s, from = JString s -> s <> "" -> timestamp sd = JString s) /\
       (Js.truthy from = true -> timestamp sd = from) /\
       (Js.truthy from = false ->
        timestamp sd = JString (Date_toISOString (clock env)))).
Proof.
  intros Hf. pose proof (get_normal_not_nullish _ _ _ Hf) as Hn. split.
  - intros log Hu.
    destruct (resourceStockData_defined env r Hn) as [sd Hsd].
    exists sd. split; [|split; [exact Hsd|]].
    + change "stock://AAPL/current" with resourceUri.
      now rewrite readResource_run, Hu, Hsd.
    + now apply resourceStockData_fields in Hsd.
  - intros args sym date log L Hu.
    destruct (toolStockData_defined env r Hn) as [sd Hsd].
    exists sd. split; [|split; [exact Hsd|]].
    + now rewrite (callTool_run env args sym date log L), Hu, Hsd.
    + apply toolStockData_fields in Hsd as (_ & _ & _ & _ & _ & _ & f & Hf' & Ht).
      assert (f = from) as -> by congruence.
      rewrite Ht. unfold Js.or. repeat split.
      * intros s -> Hs. simpl. apply String.eqb_neq in Hs. now rewrite Hs.
      * now intros ->.
      * now intros ->.
Qed.

(** *** Transport errors *)

(** The text both handlers build from a transport error. *)
Lemma polygonApiError_no_response (error : AxiosError) :
  response error = None ->
  polygonApiError error = Normal ("Polygon API error: " ++ message error).
Proof.
  intros H. unfold Adapter.polygonApiError, upstreamMessage. now rewrite H.
Qed.

Lemma polygonApiError_provider_message (error : AxiosError) (r : AxiosResponse)
      (s : string) :
  response error = Some r ->
  Js.get (data r) "message" = Normal (JString s) ->
  polygonApiError error = Normal ("Polygon API error: " ++ s).
Proof.
  intros H Hm. unfold Adapter.polygonApiError, upstreamMessage.
  now rewrite H, Hm.
Qed.

Lemma polygonApiError_no_provider_message (error : AxiosError)
      (r : AxiosResponse) (m : JsValue) :
  response error = Some r ->
  Js.get (data r) "message" = Normal m ->
  Js.nullish m = true ->
  polygonApiError error = Normal ("Polygon API error: " ++ message error).
Proof.
  intros H Hm Hn. unfold Adapter.polygonApiError, upstreamMessage.
  rewrite H, Hm. simpl. unfold Js.coalesce. now rewrite Hn.
Qed.

(** When the error carries a reply whose body is [null] or [undefined], the
    property read [.data.message] throws before any text is built. *)
Lemma polygonApiError_unreadable_body (error : AxiosError) (r : AxiosResponse) :
  response error = Some r ->
  Js.nullish (data r) = true ->
  polygonApiError error = Throw TypeError.
Proof.
  intros H Hn. unfold Adapter.polygonApiError, upstreamMessage.
  now rewrite H, (get_throws _ "message" Hn).
Qed.

(** A tool call reports a transport error in band, whenever the text of the
    error can be built. *)
Lemma callTool_reports_transport_error (env : Env) (args : JsValue)
      (sym : string) (date : JsValue) (log : Log) (error : AxiosError)
      (text : string) :
  LookupArgs args sym date ->
  upstream env (selectedPath sym date) = RejectedAxios error ->
  polygonApiError error = Normal text ->
  callTool env "get_stock_price" args log =
    (Normal (toolErrorResult text), (log ++ [selectedPath sym date])%list).
Proof.
  intros L Hu Ht. now rewrite (callTool_run env args sym date log L), Hu, Ht.
Qed.

(** A resource read turns a transport error into [InternalError], whenever
    the text of the error can be built. *)
Lemma readResource_raises_internal_error (env : Env) (log : Log)
      (error : AxiosError) (text : string) :
  upstream env (lastTradePath "AAPL") = RejectedAxios error ->
  polygonApiError error = Normal text ->
  readResource env "stock://AAPL/current" log =
    (Throw (McpError InternalError text), (log ++ [lastTradePath "AAPL"])%list).
Proof.
  intros Hu Ht. change "stock://AAPL/current" with resourceUri.
  now rewrite readResource_run, Hu, Ht.
Qed.

(** X11. Any non-transport exception of the upstream call leaves both
    handlers unmodified, after the one request. *)
Lemma foreign_errors_propagate (env : Env) (what : string) :
  (forall log,
     upstream env (lastTradePath "AAPL") = RejectedOther what ->
     readResource env "stock://AAPL/current" log =
       (Throw (ForeignError what), (log ++ [lastTradePath "AAPL"])%list)) /\
  (forall args sym date log,
     LookupArgs args sym date ->
     upstream env (selectedPath sym date) = RejectedOther what ->
     callTool env "get_stock_price" args log =
       (Throw (ForeignError what), (log ++ [selectedPath sym date])%list)).
Proof.
  split.
  - intros log Hu. change "stock://AAPL/current" with resourceUri.
    now rewrite readResource_run, Hu.
  - intros args sym date log L Hu.
    now rewrite (callTool_run env args sym date log L), Hu.
Qed.

(** C3 (defect in the code). The provider answers [GET last/stocks/AAPL] with
    an HTTP error whose JSON body is [null].  The tool call
    [{symbol: "AAPL"}] then does not return the flagged text entry
    ["Polygon API error: Request failed with status code 500"]: building the
    text reads [.message] of [null], and the handler ends with a
    [TypeError]. *)
Theorem callTool_null_error_body :
  callTool nullBodyEnv "get_stock_price"
           (JObject [("symbol", JString "AAPL")]) [] =
    (Throw TypeError, ["last/stocks/AAPL"]) /\
  callTool nullBodyEnv "get_stock_price"
           (JObject [("symbol", JString "AAPL")]) [] <>
    (Normal (toolErrorResult
               "Polygon API error: Request failed with status code 500"),
     ["last/stocks/AAPL"]).
Proof. split; [reflexivity | discriminate]. Qed.

(** C7 (defect in the code). With the same reply of the provider, a read of
    [stock://AAPL/current] does not fail with the [InternalError] carrying
    ["Polygon API error: Request failed with status code 500"]: it ends with
    a [TypeError]. *)
Theorem readResource_null_error_body :
  readResource nullBodyEnv "stock://AAPL/current" [] =
    (Throw TypeError, ["last/stocks/AAPL"]) /\
  readResource nullBodyEnv "stock://AAPL/current" [] <>
    (Throw (McpError InternalError
              "Polygon API error: Request failed with status code 500"),
     ["last/stocks/AAPL"]).
Proof. split; [reflexivity | discriminate]. Qed.

End Properties.

(** * Instances and counterexamples *)

Lemma readResource_unknown_uri_witness :
  sampleReadResource sampleEnv "stock://MSFT/current" [] =
    (Throw (McpError InvalidRequest "Unknown resource: stock://MSFT/current"),
     []).
Proof.
  apply (readResource_unknown_uri sampleNumberToString sampleToISOString
           sampleStringify sampleEnv "stock://MSFT/current" []).
  discriminate.
Defined.

Lemma callTool_invalid_params_witness :
  sampleCallTool sampleEnv "get_stock_price" numericSymbol [] =
    (Throw (McpError InvalidParams "Invalid stock price arguments"), []).
Proof.
  apply (callTool_invalid_params sampleNumberToString sampleToISOString
           sampleStringify sampleEnv numericSymbol []).
  apply (SymbolNotString _ (JNumber 42%float)); [reflexivity | discriminate].
Defined.

Lemma callTool_one_request_witness :
  exists outcome path,
    sampleCallTool sampleEnv "get_stock_price" msftOnDay [] =
      (outcome, [path]) /\
    (JString "2024-01-05" = JUndefined \/ JString "2024-01-05" = JString "" ->
     path = "last/stocks/MSFT") /\
    (forall day, JString "2024-01-05" = JString day -> day <> "" ->
                 path = "open-close/MSFT/" ++ day).
Proof.
  apply (callTool_one_request sampleNumberToString sampleToISOString
           sampleStringify sampleEnv msftOnDay "MSFT" (JString "2024-01-05") []).
  exists [("symbol", JString "MSFT"); ("date", JString "2024-01-05")].
  repeat split. right. exists "2024-01-05". reflexivity.
Defined.

Lemma callTool_empty_symbol_witness :
  isValidStockPriceArgs emptySymbol = Normal true /\
  exists outcome,
    sampleCallTool sampleEnv "get_stock_price" emptySymbol [] =
      (outcome, ["last/stocks/"]) /\
    forall code msg, outcome <> Throw (McpError code msg).
Proof.
  apply (callTool_empty_symbol sampleNumberToString sampleToISOString
           sampleStringify sampleEnv emptySymbol JUndefined []).
  exists [("symbol", JString "")]. repeat split. left. reflexivity.
Defined.

Lemma price_is_close_witness :
  (forall log,
     exists sd,
       sampleReadResource negativeEnv "stock://AAPL/current" log =
         (Normal (resourceResult "stock://AAPL/current" (sampleStringify sd)),
          (log ++ ["last/stocks/AAPL"])%list) /\
       resourceStockData sampleToISOString negativeEnv negativeQuote = Normal sd /\
       price sd = JNumber (-3.5)%float) /\
  (exists sd,
     sampleCallTool negativeEnv "get_stock_price" aaplLatest [] =
       (Normal (toolResult (sampleStringify sd)), ["last/stocks/AAPL"]) /\
     toolStockData sampleToISOString negativeEnv negativeQuote = Normal sd /\
     price sd = JNumber (-3.5)%float).
Proof.
  destruct (price_is_close sampleNumberToString sampleToISOString
              sampleStringify negativeEnv negativeQuote (JNumber (-3.5)%float)
              eq_refl) as [R T].
  split.
  - intros log. apply (R log). reflexivity.
  - apply (T aaplLatest "AAPL" JUndefined []); [|reflexivity].
    exists [("symbol", JString "AAPL")]. repeat split. left. reflexivity.
Defined.

Lemma stock_data_paths_agree_witness :
  exists sd1 sd2,
    resourceStockData sampleToISOString sampleEnv sampleQuote = Normal sd1 /\
    toolStockData sampleToISOString sampleEnv sampleQuote = Normal sd2 /\
    symbol sd1 = symbol sd2 /\ price sd1 = price sd2 /\
    open sd1 = open sd2 /\ high sd1 = high sd2 /\
    low sd1 = low sd2 /\ volume sd1 = volume sd2.
Proof.
  destruct (stock_data_paths_agree sampleNumberToString sampleToISOString
              sampleStringify sampleEnv sampleQuote eq_refl)
    as (sd1 & sd2 & H1 & H2 & A & B & C & D & E & F & _).
  exists sd1, sd2. repeat split; assumption.
Defined.

Lemma timestamp_source_witness :
  (exists sd,
     sampleReadResource sampleEnv "stock://AAPL/current" [] =
       (Normal (resourceResult "stock://AAPL/current" (sampleStringify sd)),
        ["last/stocks/AAPL"]) /\
     timestamp sd = JString "2024-01-08T14:30:00.000Z") /\
  (exists sd,
     sampleCallTool sampleEnv "get_stock_price" msftOnDay [] =
       (Normal (toolResult (sampleStringify sd)),
        ["open-close/MSFT/2024-01-05"]) /\
     timestamp sd = JString "2024-01-05").
Proof.
  destruct (timestamp_source sampleNumberToString sampleToISOString
              sampleStringify sampleEnv sampleQuote (JString "2024-01-05")
              eq_refl) as [R T].
  split.
  - destruct (R [] eq_refl) as (sd & Hrun & _ & Hts). exists sd. split.
    + exact Hrun.
    + exact Hts.
  - assert (L : LookupArgs msftOnDay "MSFT" (JString "2024-01-05")).
    { exists [("symbol", JString "MSFT"); ("date", JString "2024-01-05")].
      repeat split. right. exists "2024-01-05". reflexivity. }
    destruct (T msftOnDay "MSFT" (JString "2024-01-05") [] L eq_refl)
      as (sd & Hrun & _ & Hs & _).
    exists sd. split.
    + exact Hrun.
    + apply (Hs "2024-01-05"); [reflexivity | discriminate].
Defined.

(** C1 as stated fails on the read-resource path: the provider answers with
    [sampleQuote], whose [from] is the non-empty string ["2024-01-05"], and
    the StockData of the resource read carries the clock's
    ["2024-01-08T14:30:00.000Z"] instead. *)
Lemma timestamp_from_fails_on_resource_read :
  ~ (forall (env : Env) (r : AxiosResponse) (s : string) (log : Log),
       upstream env (lastTradePath "AAPL") = Resolved r ->
       Js.get (data r) "from" = Normal (JString s) ->
       s <> "" ->
       exists sd,
         sampleReadResource env "stock://AAPL/current" log =
           (Normal (resourceResult "stock://AAPL/current" (sampleStringify sd)),
            (log ++ [lastTradePath "AAPL"])%list) /\
         resourceStockData sampleToISOString env r = Normal sd /\
         timestamp sd = JString s).
Proof.
  intros H.
  destruct (H sampleEnv sampleQuote "2024-01-05" [] eq_refl eq_refl)
    as (sd & _ & Hsd & Hts); [discriminate|].
  vm_compute in Hsd. injection Hsd as <-. discriminate Hts.
Qed.

(** C2 as stated fails when [date] is present but empty: the arguments
    [{symbol: "AAPL", date: ""}] pass the shape check, [date] is present, and
    the one request goes to [last/stocks/AAPL], not to the "daily open/close"
    endpoint [open-close/AAPL/]. *)
Lemma open_close_fails_on_empty_date :
  ~ (forall (env : Env) (args : JsValue) (sym : string) (date : JsValue)
            (log : Log),
       LookupArgs args sym date ->
       exists outcome path,
         sampleCallTool env "get_stock_price" args log =
           (outcome, (log ++ [path])%list) /\
         (date = JUndefined -> path = lastTradePath sym) /\
         (forall day, date = JString day -> path = openClosePath sym day)).
Proof.
  intros H.
  destruct (H sampleEnv aaplEmptyDate "AAPL" (JString "") [])
    as (outcome & path & Hrun & _ & Hday).
  - exists [("symbol", JString "AAPL"); ("date", JString "")].
    repeat split. right. exists "". reflexivity.
  - specialize (Hday "" eq_refl). subst path.
    vm_compute in Hrun. discriminate Hrun.
Qed.

(** C8 as stated fails: the arguments [{symbol: ""}] are accepted by the
    shape check, and the call requests [last/stocks/] from the provider
    instead of failing with [InvalidParams] before any request. *)
Lemma empty_symbol_is_not_rejected :
  ~ (forall (env : Env) (args : JsValue) (log : Log),
       Js.get args "symbol" = Normal (JString "") ->
       sampleCallTool env "get_stock_price" args log =
         (Throw (McpError InvalidParams "Invalid stock price arguments"), log)).
Proof.
  intros H. specialize (H sampleEnv emptySymbol [] eq_refl).
  vm_compute in H. discriminate H.
Qed.

Example empty_symbol_accepted :
  isValidStockPriceArgs emptySymbol = Normal true /\
  exists outcome,
    sampleCallTool sampleEnv "get_stock_price" emptySymbol [] =
      (outcome, ["last/stocks/"]).
Proof. split; [reflexivity | eexists; reflexivity]. Qed.

(** ** Scenarios of the specification *)

Example scenario_latest :
  exists outcome,
    sampleCallTool sampleEnv "get_stock_price" aaplLatest [] =
      (outcome, ["last/stocks/AAPL"]).
Proof. eexists. reflexivity. Qed.

Example scenario_on_day :
  exists outcome,
    sampleCallTool sampleEnv "get_stock_price" msftOnDay [] =
      (outcome, ["open-close/MSFT/2024-01-05"]).
Proof. eexists. reflexivity. Qed.

Example scenario_rate_limited :
  sampleCallTool rateLimitedEnv "get_stock_price" aaplLatest [] =
    (Normal (JObject [
       ("content", JArray [JObject [
          ("type", JString "text");
          ("text", JString "Polygon API error: rate limited")]]);
       ("isError", JBool true)]),
     ["last/stocks/AAPL"]).
Proof. reflexivity. Qed.

Example scenario_rate_limited_read :
  sampleReadResource rateLimitedEnv "stock://AAPL/current" [] =
    (Throw (McpError InternalError "Polygon API error: rate limited"),
     ["last/stocks/AAPL"]).
Proof. reflexivity. Qed.

Example scenario_unknown_tool :
  sampleCallTool sampleEnv "get_quote" aaplLatest [] =
    (Throw (McpError MethodNotFound "Unknown tool: get_quote"), []).
Proof. reflexivity. Qed.

(** * Further properties of the handlers *)

Section Further.

Variable Number_toString : float -> string.
Variable Date_toISOString : Z -> string.
Variable JSON_stringify : StockData -> string.

Local Abbreviation readResource :=
  (readResource Number_toString Date_toISOString JSON_stringify).
Local Abbreviation callTool :=
  (callTool Number_toString Date_toISOString JSON_stringify).
Local Abbreviation resourceStockData := (resourceStockData Date_toISOString).
Local Abbreviation toolStockData := (toolStockData Date_toISOString).
Local Abbreviation polygonApiError := (polygonApiError Number_toString).

(** ** Every way a handler can end *)

Lemma stockData_unreadable (env : Env) (r : AxiosResponse) :
  Js.nullish (data r) = true ->
  resourceStockData env r = Throw TypeError /\
  toolStockData env r = Throw TypeError.
Proof.
  intros Hn. unfold Adapter.resourceStockData, Adapter.toolStockData.
  now rewrite (get_throws _ "symbol" Hn).
Qed.

Lemma shape_excludes_violation (args : JsValue) (sym : string) (date : JsValue) :
  LookupArgs args sym date -> ~ ShapeViolation args.
Proof.
  intros L V.
  assert (A : isValidStockPriceArgs args = Normal true)
    by (apply isValidStockPriceArgs_accepts; eauto).
  rewrite (isValidStockPriceArgs_rejects args V) in A. discriminate.
Qed.

Lemma readResource_cases (env : Env) (uri : string) (log : Log) :
  (uri <> "stock://AAPL/current" /\
   readResource env uri log =
     (Throw (McpError InvalidRequest ("Unknown resource: " ++ uri)), log)) \/
  (uri = "stock://AAPL/current" /\
   let log' := (log ++ ["last/stocks/AAPL"])%list in
   (exists r sd,
      upstream env "last/stocks/AAPL" = Resolved r /\
      resourceStockData env r = Normal sd /\
      readResource env uri log =
        (Normal (resourceResult uri (JSON_stringify sd)), log')) \/
   (exists r,
      upstream env "last/stocks/AAPL" = Resolved r /\
      Js.nullish (data r) = true /\
      readResource env uri log = (Throw TypeError, log')) \/
   (exists error text,
      upstream env "last/stocks/AAPL" = RejectedAxios error /\
      polygonApiError error = Normal text /\
      readResource env uri log = (Throw (McpError InternalError text), log')) \/
   (exists error,
      upstream env "last/stocks/AAPL" = RejectedAxios error /\
      polygonApiError error = Throw TypeError /\
      readResource env uri log = (Throw TypeError, log')) \/
   (exists what,
      upstream env "last/stocks/AAPL" = RejectedOther what /\
      readResource env uri log = (Throw (ForeignError what), log'))).
Proof.
  destruct (String.eqb_spec uri "stock://AAPL/current") as [-> | Huri].
  - right. split; [reflexivity|]. cbv zeta.
    change "stock://AAPL/current" with resourceUri.
    rewrite readResource_run.
    change (lastTradePath "AAPL") with "last/stocks/AAPL".
    destruct (upstream env "last/stocks/AAPL") as [r | error | what].
    + destruct (Js.nullish (data r)) eqn:Hn.
      * right; left. exists r.
        destruct (stockData_unreadable env r Hn) as [-> _]. repeat split; assumption || reflexivity.
      * left. destruct (resourceStockData_defined Date_toISOString env r Hn) as [sd Hsd].
        exists r, sd. rewrite Hsd. repeat split.
    + destruct (polygonApiError error) as [text | e] eqn:E.
      * right; right; left. exists error, text. repeat split; assumption || reflexivity.
      * right; right; right; left. exists error.
        pose proof (polygonApiError_throws Number_toString _ _ E) as ->. repeat split; assumption || reflexivity.
    + right; right; right; right. exists what. repeat split; assumption || reflexivity.
  - left. split; [exact Huri|].
    apply readResource_other_uri. now apply String.eqb_neq.
Qed.

Lemma callTool_cases (env : Env) (name : string) (args : JsValue) (log : Log) :
  (name <> "get_stock_price" /\
   callTool env name args log =
     (Throw (McpError MethodNotFound ("Unknown tool: " ++ name)), log)) \/
  (name = "get_stock_price" /\ ShapeViolation args /\
   callTool env name args log =
     (Throw (McpError InvalidParams "Invalid stock price arguments"), log)) \/
  (name = "get_stock_price" /\
   exists sym date,
     LookupArgs args sym date /\
     let path := selectedPath sym date in
     let log' := (log ++ [path])%list in
     (exists r sd,
        upstream env path = Resolved r /\
        toolStockData env r = Normal sd /\
        callTool env name args log =
          (Normal (toolResult (JSON_stringify sd)), log')) \/
     (exists r,
        upstream env path = Resolved r /\
        Js.nullish (data r) = true /\
        callTool env name args log = (Throw TypeError, log')) \/
     (exists error text,
        upstream env path = RejectedAxios error /\
        polygonApiError error = Normal text /\
        callTool env name args log = (Normal (toolErrorResult text), log')) \/
     (exists error,
        upstream env path = RejectedAxios error /\
        polygonApiError error = Throw TypeError /\
        callTool env name args log = (Throw TypeError, log')) \/
     (exists what,
        upstream env path = RejectedOther what /\
        callTool env name args log = (Throw (ForeignError what), log'))).
Proof.
  destruct (String.eqb_spec name "get_stock_price") as [-> | Hname].
  - right. destruct (isValidStockPriceArgs_total args) as [[|] V].
    + right. split; [reflexivity|].
      apply isValidStockPriceArgs_accepts in V as (sym & date & L).
      exists sym, date. split; [exact L|]. cbv zeta.
      rewrite (callTool_run Number_toString Date_toISOString JSON_stringify env args sym date log L).
      destruct (upstream env (selectedPath sym date)) as [r | error | what].
      * destruct (Js.nullish (data r)) eqn:Hn.
        -- right; left. exists r.
           destruct (stockData_unreadable env r Hn) as [_ ->]. repeat split; assumption || reflexivity.
        -- left. destruct (toolStockData_defined Date_toISOString env r Hn) as [sd Hsd].
           exists r, sd. rewrite Hsd. repeat split.
      * destruct (polygonApiError error) as [text | e] eqn:E.
        -- right; right; left. exists error, text. repeat split; assumption || reflexivity.
        -- right; right; right; left. exists error.
           pose proof (polygonApiError_throws Number_toString _ _ E) as ->. repeat split; assumption || reflexivity.
      * right; right; right; right. exists what. repeat split; assumption || reflexivity.
    + left. split; [reflexivity|]. split.
      * now apply isValidStockPriceArgs_rejects_only.
      * now apply callTool_guard_rejects.
  - left. split; [exact Hname|]. now apply callTool_unknown_tool.
Qed.

Ltac split_cases :=
  cbv zeta in *;
  repeat match goal with
    | H : _ \/ _ |- _ => destruct H as [H | H]
    | H : exists _, _ |- _ => destruct H as [? H]
    | H : _ /\ _ |- _ => destruct H as [? H]
    end.

(** ** Which protocol error, and when *)

(** X1. A tool call ends with [MethodNotFound] exactly when the tool name is
    not [get_stock_price]; the name is tested before the arguments are looked
    at, the message names the tool, and no upstream request is issued. *)
Theorem method_not_found_iff (env : Env) (name : string) (args : JsValue)
        (log log' : Log) (msg : string) :
  callTool env name args log = (Throw (McpError MethodNotFound msg), log') <->
  name <> "get_stock_price" /\ msg = "Unknown tool: " ++ name /\ log' = log.
Proof.
  split.
  - intros H. pose proof (callTool_cases env name args log) as C.
    split_cases; rewrite C in H; try discriminate.
    injection H as <- <-. auto.
  - intros (Hn & -> & ->). now apply callTool_unknown_tool.
Qed.

(** X2. A tool call ends with [InvalidParams] exactly when the tool name is
    [get_stock_price] and the arguments violate the LookupArgs shape; no
    upstream request is issued. *)
Theorem invalid_params_iff (env : Env) (name : string) (args : JsValue)
        (log log' : Log) (msg : string) :
  callTool env name args log = (Throw (McpError InvalidParams msg), log') <->
  name = "get_stock_price" /\ ShapeViolation args /\
  msg = "Invalid stock price arguments" /\ log' = log.
Proof.
  split.
  - intros H. pose proof (callTool_cases env name args log) as C.
    split_cases; rewrite C in H; try discriminate.
    injection H as <- <-. auto.
  - intros (-> & V & -> & ->). apply callTool_guard_rejects.
    now apply isValidStockPriceArgs_rejects.
Qed.

(** X3. A resource read ends with [InvalidRequest] exactly when the URI is
    not [stock://AAPL/current]; the message names the URI and no upstream
    request is issued. *)
Theorem invalid_request_iff (env : Env) (uri : string) (log log' : Log)
        (msg : string) :
  readResource env uri log = (Throw (McpError InvalidRequest msg), log') <->
  uri <> "stock://AAPL/current" /\ msg = "Unknown resource: " ++ uri /\
  log' = log.
Proof.
  split.
  - intros H. pose proof (readResource_cases env uri log) as C.
    split_cases; rewrite C in H; try discriminate.
    injection H as <- <-. auto.
  - intros (Hu & -> & ->). apply readResource_other_uri.
    now apply String.eqb_neq.
Qed.

(** X4. A resource read ends with [InternalError] exactly when the URI is the
    resource's, its one request to [last/stocks/AAPL] failed with a transport
    error, and the text of that error could be built; the text is the
    message of the [InternalError]. *)
Theorem internal_error_iff (env : Env) (uri : string) (log log' : Log)
        (msg : string) :
  readResource env uri log = (Throw (McpError InternalError msg), log') <->
  uri = "stock://AAPL/current" /\
  log' = (log ++ ["last/stocks/AAPL"])%list /\
  exists error,
    upstream env "last/stocks/AAPL" = RejectedAxios error /\
    polygonApiError error = Normal msg.
Proof.
  split.
  - intros H. pose proof (readResource_cases env uri log) as C.
    split_cases; rewrite C in H; try discriminate.
    injection H as <- <-. eauto.
  - intros (-> & -> & error & Hu & Ht).
    exact (readResource_raises_internal_error Number_toString Date_toISOString
             JSON_stringify env log error msg Hu Ht).
Qed.

(** X5. Neither handler lets a transport error of the HTTP client escape as
    it is, and each raises only its own protocol errors: a resource read never
    ends with [MethodNotFound] or [InvalidParams], a tool call never with
    [InvalidRequest] or [InternalError]. *)
Theorem handlers_keep_their_errors (env : Env) (log : Log) :
  (forall uri,
     (forall error, fst (readResource env uri log) <> Throw (AxiosErr error)) /\
     (forall msg,
        fst (readResource env uri log) <> Throw (McpError MethodNotFound msg) /\
        fst (readResource env uri log) <> Throw (McpError InvalidParams msg))) /\
  (forall name args,
     (forall error, fst (callTool env name args log) <> Throw (AxiosErr error)) /\
     (forall msg,
        fst (callTool env name args log) <> Throw (McpError InvalidRequest msg) /\
        fst (callTool env name args log) <> Throw (McpError InternalError msg))).
Proof.
  split.
  - intros uri. pose proof (readResource_cases env uri log) as C.
    split_cases; rewrite C; repeat split; discriminate.
  - intros name args. pose proof (callTool_cases env name args log) as C.
    split_cases; rewrite C; repeat split; discriminate.
Qed.

(** ** The type guard *)

(** X6. [isValidStockPriceArgs] never throws, whatever it is given: the
    [typeof] and [null] tests come before the [in] test and the property
    reads.  It answers [true] exactly on the LookupArgs shape and [false]
    exactly on a violation of it, and no value is both. *)
Theorem isValidStockPriceArgs_decides (args : JsValue) :
  ((isValidStockPriceArgs args = Normal true /\
    exists sym date, LookupArgs args sym date) \/
   (isValidStockPriceArgs args = Normal false /\ ShapeViolation args)) /\
  ~ ((exists sym date, LookupArgs args sym date) /\ ShapeViolation args).
Proof.
  split.
  - destruct (isValidStockPriceArgs_total args) as [[|] V].
    + left. split; [exact V|]. now apply isValidStockPriceArgs_accepts.
    + right. split; [exact V|]. now apply isValidStockPriceArgs_rejects_only.
  - intros [(sym & date & L) V]. exact (shape_excludes_violation _ _ _ L V).
Qed.

(** X7. A tool call reads nothing of its arguments but [symbol] and [date]:
    two well-shaped argument objects with the same symbol and the same date
    value give the same outcome and the same upstream request, whatever else
    they carry. *)
Theorem callTool_reads_symbol_and_date (env : Env) (name : string)
        (args1 args2 : JsValue) (sym : string) (date : JsValue) (log : Log) :
  LookupArgs args1 sym date ->
  LookupArgs args2 sym date ->
  callTool env name args1 log = callTool env name args2 log.
Proof.
  intros L1 L2.
  destruct (String.eqb_spec name "get_stock_price") as [-> | Hname].
  - rewrite (callTool_run Number_toString Date_toISOString JSON_stringify
               env args1 sym date log L1).
    now rewrite (callTool_run Number_toString Date_toISOString JSON_stringify
                   env args2 sym date log L2).
  - rewrite !callTool_unknown_tool by exact Hname. reflexivity.
Qed.

(** X10. In the result of a tool call, the [isError] flag tells the two
    normal endings apart: it is [true] exactly when the upstream request
    failed with a transport error, and absent exactly when it resolved. *)
Theorem isError_marks_transport_errors (env : Env) (name : string)
        (args : JsValue) (log log' : Log) (res : JsValue) :
  callTool env name args log = (Normal res, log') ->
  exists sym date,
    LookupArgs args sym date /\
    ((Js.get res "isError" = Normal (JBool true) /\
      exists error, upstream env (selectedPath sym date) = RejectedAxios error) \/
     (Js.get res "isError" = Normal JUndefined /\
      exists r, upstream env (selectedPath sym date) = Resolved r)).
Proof.
  intros H. pose proof (callTool_cases env name args log) as C.
  destruct C as [(_ & E) | [(_ & _ & E) | (_ & sym & date & L & C)]];
    [rewrite E in H; discriminate .. |].
  exists sym, date. split; [exact L|].
  split_cases; rewrite C in H; try discriminate; injection H as <- <-.
  - right. split; [reflexivity | eauto].
  - left. split; [reflexivity | eauto].
Qed.

(** ** Transport errors whose text can be built *)

(** X12. When the failed reply's body carries a string [message], both
    handlers report exactly that string after ["Polygon API error: "], even
    when it is empty: the read as the message of an [InternalError], the tool
    call as its flagged text entry. *)
Theorem provider_message_is_reported (env : Env) (error : AxiosError)
        (r : AxiosResponse) (s : string) :
  response error = Some r ->
  Js.get (data r) "message" = Normal (JString s) ->
  (forall log,
     upstream env "last/stocks/AAPL" = RejectedAxios error ->
     readResource env "stock://AAPL/current" log =
       (Throw (McpError InternalError ("Polygon API error: " ++ s)),
        (log ++ ["last/stocks/AAPL"])%list)) /\
  (forall args sym date log,
     LookupArgs args sym date ->
     upstream env (selectedPath sym date) = RejectedAxios error ->
     callTool env "get_stock_price" args log =
       (Normal (toolErrorResult ("Polygon API error: " ++ s)),
        (log ++ [selectedPath sym date])%list)).
Proof.
  intros Hr Hm.
  pose proof (polygonApiError_provider_message Number_toString error r s Hr Hm)
    as Ht.
  split.
  - intros log Hu. change "stock://AAPL/current" with resourceUri.
    rewrite readResource_run.
    change (lastTradePath "AAPL") with "last/stocks/AAPL".
    now rewrite Hu, Ht.
  - intros args sym date log L Hu.
    rewrite (callTool_run Number_toString Date_toISOString JSON_stringify
               env args sym date log L).
    now rewrite Hu, Ht.
Qed.

(** X13. When the transport error has no reply at all, or its reply body has
    no [message] (absent or [null]), both handlers fall back on the transport
    error's own message. *)
Theorem transport_message_is_the_fallback (env : Env) (error : AxiosError) :
  (response error = None \/
   exists r m, response error = Some r /\
               Js.get (data r) "message" = Normal m /\
               (m = JUndefined \/ m = JNull)) ->
  (forall log,
     upstream env "last/stocks/AAPL" = RejectedAxios error ->
     readResource env "stock://AAPL/current" log =
       (Throw (McpError InternalError ("Polygon API error: " ++ message error)),
        (log ++ ["last/stocks/AAPL"])%list)) /\
  (forall args sym date log,
     LookupArgs args sym date ->
     upstream env (selectedPath sym date) = RejectedAxios error ->
     callTool env "get_stock_price" args log =
       (Normal (toolErrorResult ("Polygon API error: " ++ message error)),
        (log ++ [selectedPath sym date])%list)).
Proof.
  intros H.
  assert (Ht : polygonApiError error =
               Normal ("Polygon API error: " ++ message error)).
  { destruct H as [Hr | (r & m & Hr & Hm & Hn)].
    - now apply polygonApiError_no_response.
    - apply (polygonApiError_no_provider_message Number_toString error r m Hr Hm).
      destruct Hn as [-> | ->]; reflexivity. }
  split.
  - intros log Hu. change "stock://AAPL/current" with resourceUri.
    rewrite readResource_run.
    change (lastTradePath "AAPL") with "last/stocks/AAPL".
    now rewrite Hu, Ht.
  - intros args sym date log L Hu.
    rewrite (callTool_run Number_toString Date_toISOString JSON_stringify
               env args sym date log L).
    now rewrite Hu, Ht.
Qed.

(** ** Requests *)

(** X14. A handler issues at most one upstream request, whatever it is given,
    and neither its outcome nor its request depends on what was requested
    before.  A resource read requests nothing or [last/stocks/AAPL]. *)
Theorem handlers_issue_at_most_one_request (env : Env) :
  (forall uri,
     exists outcome requests,
       (requests = [] \/ requests = ["last/stocks/AAPL"]) /\
       forall log, readResource env uri log = (outcome, (log ++ requests)%list)) /\
  (forall name args,
     exists outcome requests,
       (requests = [] \/ exists path, requests = [path]) /\
       forall log, callTool env name args log = (outcome, (log ++ requests)%list)).
Proof.
  split.
  - intros uri. destruct (uri =? "stock://AAPL/current") eqn:E.
    + apply String.eqb_eq in E. subst uri. eexists _, ["last/stocks/AAPL"].
      split; [now right|]. intros log.
      change "stock://AAPL/current" with resourceUri.
      rewrite readResource_run. reflexivity.
    + eexists _, []. split; [now left|]. intros log.
      rewrite app_nil_r. now apply readResource_other_uri.
  - intros name args.
    destruct (String.eqb_spec name "get_stock_price") as [-> | Hname].
    + destruct (isValidStockPriceArgs_total args) as [[|] V].
      * apply isValidStockPriceArgs_accepts in V as (sym & date & L).
        eexists _, [selectedPath sym date]. split; [right; eauto|].
        intros log.
        rewrite (callTool_run Number_toString Date_toISOString JSON_stringify
                   env args sym date log L).
        reflexivity.
      * eexists _, []. split; [now left|]. intros log.
        rewrite app_nil_r. now apply callTool_guard_rejects.
    + eexists _, []. split; [now left|]. intros log.
      rewrite app_nil_r. now apply callTool_unknown_tool.
Qed.

(** X20. The symbol and the date are spliced into the path as they are,
    nothing is encoded: a slash in the symbol and a slash in the date land in
    the same place, so two different lookups can issue the same request and
    get the same outcome. *)
Theorem path_is_spliced_verbatim (env : Env) (a b c : string) (log : Log) :
  c <> "" ->
  exists outcome,
    callTool env "get_stock_price"
      (JObject [("symbol", JString (a ++ "/" ++ b)); ("date", JString c)]) log =
      (outcome, (log ++ [("open-close/" ++ a ++ "/" ++ b ++ "/" ++ c)%string])%list) /\
    callTool env "get_stock_price"
      (JObject [("symbol", JString a); ("date", JString (b ++ "/" ++ c))]) log =
      (outcome, (log ++ [("open-close/" ++ a ++ "/" ++ b ++ "/" ++ c)%string])%list).
Proof.
  intros Hc.
  assert (A : forall x y z : string, (x ++ y) ++ z = x ++ y ++ z).
  { induction x as [| ch x IH]; intros y z; simpl; [reflexivity|].
    now rewrite IH. }
  assert (P1 : selectedPath (a ++ "/" ++ b) (JString c) =
               "open-close/" ++ a ++ "/" ++ b ++ "/" ++ c).
  { unfold selectedPath, openClosePath. apply String.eqb_neq in Hc.
    rewrite Hc. now rewrite !A. }
  assert (P2 : selectedPath a (JString (b ++ "/" ++ c)) =
               "open-close/" ++ a ++ "/" ++ b ++ "/" ++ c).
  { unfold selectedPath, openClosePath.
    assert (E : (b ++ "/" ++ c =? "") = false)
      by (apply String.eqb_neq; destruct b; discriminate).
    now rewrite E. }
  assert (L1 : LookupArgs
                 (JObject [("symbol", JString (a ++ "/" ++ b)); ("date", JString c)])
                 (a ++ "/" ++ b) (JString c)).
  { eexists. repeat split. right. eauto. }
  assert (L2 : LookupArgs
                 (JObject [("symbol", JString a); ("date", JString (b ++ "/" ++ c))])
                 a (JString (b ++ "/" ++ c))).
  { eexists. repeat split. right. eauto. }
  rewrite (callTool_run Number_toString Date_toISOString JSON_stringify
             env _ _ _ log L1).
  rewrite (callTool_run Number_toString Date_toISOString JSON_stringify
             env _ _ _ log L2).
  rewrite P1, P2. eexists. split; reflexivity.
Qed.

(** ** Replies *)

(** X15. A resolved reply whose body is [null] or [undefined] is not
    reported as an upstream failure: after its one request, either handler
    ends with the [TypeError] of the first property read, which its [catch]
    passes on. *)
Theorem unreadable_reply_body (env : Env) (r : AxiosResponse) :
  Js.nullish (data r) = true ->
  (forall log,
     upstream env "last/stocks/AAPL" = Resolved r ->
     readResource env "stock://AAPL/current" log =
       (Throw TypeError, (log ++ ["last/stocks/AAPL"])%list)) /\
  (forall args sym date log,
     LookupArgs args sym date ->
     upstream env (selectedPath sym date) = Resolved r ->
     callTool env "get_stock_price" args log =
       (Throw TypeError, (log ++ [selectedPath sym date])%list)).
Proof.
  intros Hn. destruct (stockData_unreadable env r Hn) as [H1 H2]. split.
  - intros log Hu. change "stock://AAPL/current" with resourceUri.
    rewrite readResource_run.
    change (lastTradePath "AAPL") with "last/stocks/AAPL".
    now rewrite Hu, H1.
  - intros args sym date log L Hu.
    rewrite (callTool_run Number_toString Date_toISOString JSON_stringify
               env args sym date log L).
    now rewrite Hu, H2.
Qed.

(** X16. On a successful lookup through either capability, the [symbol],
    [open], [high], [low] and [volume] of the returned StockData are the
    reply's properties of the same names, as they are. *)
Theorem fields_are_the_reply_properties (env : Env) (r : AxiosResponse) :
  Js.nullish (data r) = false ->
  (forall log,
     upstream env "last/stocks/AAPL" = Resolved r ->
     exists sd,
       readResource env "stock://AAPL/current" log =
         (Normal (resourceResult "stock://AAPL/current" (JSON_stringify sd)),
          (log ++ ["last/stocks/AAPL"])%list) /\
       Js.get (data r) "symbol" = Normal (symbol sd) /\
       Js.get (data r) "open" = Normal (open sd) /\
       Js.get (data r) "high" = Normal (high sd) /\
       Js.get (data r) "low" = Normal (low sd) /\
       Js.get (data r) "volume" = Normal (volume sd)) /\
  (forall args sym date log,
     LookupArgs args sym date ->
     upstream env (selectedPath sym date) = Resolved r ->
     exists sd,
       callTool env "get_stock_price" args log =
         (Normal (toolResult (JSON_stringify sd)),
          (log ++ [selectedPath sym date])%list) /\
       Js.get (data r) "symbol" = Normal (symbol sd) /\
       Js.get (data r) "open" = Normal (open sd) /\
       Js.get (data r) "high" = Normal (high sd) /\
       Js.get (data r) "low" = Normal (low sd) /\
       Js.get (data r) "volume" = Normal (volume sd)).
Proof.
  intros Hn. split.
  - intros log Hu.
    destruct (resourceStockData_defined Date_toISOString env r Hn) as [sd Hsd].
    exists sd. split.
    + change "stock://AAPL/current" with resourceUri.
      rewrite readResource_run.
      change (lastTradePath "AAPL") with "last/stocks/AAPL".
      now rewrite Hu, Hsd.
    + apply resourceStockData_fields in Hsd as (A & _ & B & C & D & E & _).
      auto.
  - intros args sym date log L Hu.
    destruct (toolStockData_defined Date_toISOString env r Hn) as [sd Hsd].
    exists sd. split.
    + rewrite (callTool_run Number_toString Date_toISOString JSON_stringify
                 env args sym date log L).
      now rewrite Hu, Hsd.
    + apply toolStockData_fields in Hsd as (A & _ & B & C & D & E & _).
      auto.
Qed.

(** X17. The reply is not validated.  When it has none of the properties the
    handlers read (a body that is a string, a number or an array, or an object
    without them), the lookup still succeeds, with a StockData whose fields
    are all [undefined] and whose [timestamp] is the wall clock. *)
Theorem blank_reply_gives_blank_stock_data (env : Env) (r : AxiosResponse) :
  (forall k,
     In k ["symbol"; "close"; "open"; "high"; "low"; "volume"; "from"] ->
     Js.get (data r) k = Normal JUndefined) ->
  let blank :=
    {| symbol := JUndefined; price := JUndefined; open := JUndefined;
       high := JUndefined; low := JUndefined; volume := JUndefined;
       timestamp := JString (Date_toISOString (clock env)) |} in
  (forall log,
     upstream env "last/stocks/AAPL" = Resolved r ->
     readResource env "stock://AAPL/current" log =
       (Normal (resourceResult "stock://AAPL/current" (JSON_stringify blank)),
        (log ++ ["last/stocks/AAPL"])%list)) /\
  (forall args sym date log,
     LookupArgs args sym date ->
     upstream env (selectedPath sym date) = Resolved r ->
     callTool env "get_stock_price" args log =
       (Normal (toolResult (JSON_stringify blank)),
        (log ++ [selectedPath sym date])%list)).
Proof.
  intros H blank.
  assert (H1 : resourceStockData env r = Normal blank).
  { unfold Adapter.resourceStockData.
    rewrite !H by (simpl; tauto). reflexivity. }
  assert (H2 : toolStockData env r = Normal blank).
  { unfold Adapter.toolStockData.
    rewrite !H by (simpl; tauto). reflexivity. }
  split.
  - intros log Hu. change "stock://AAPL/current" with resourceUri.
    rewrite readResource_run.
    change (lastTradePath "AAPL") with "last/stocks/AAPL".
    now rewrite Hu, H1.
  - intros args sym date log L Hu.
    rewrite (callTool_run Number_toString Date_toISOString JSON_stringify
               env args sym date log L).
    now rewrite Hu, H2.
Qed.

(** ** What is listed is served *)

(** X18. List-resources returns, for every request and without any upstream
    request, one resource of MIME type [application/json], and the URI it
    lists is one the read handler serves: reading it issues the request to
    [last/stocks/AAPL] and never ends with [InvalidRequest]. *)
Theorem listed_resource_is_readable :
  exists uri name description : string,
    (forall request log,
       listResources request log =
         (Normal (JObject [("resources", JArray [JObject [
            ("uri", JString uri);
            ("name", JString name);
            ("mimeType", JString "application/json");
            ("description", JString description)]])]), log)) /\
    (forall env log,
       exists outcome,
         readResource env uri log =
           (outcome, (log ++ ["last/stocks/AAPL"])%list) /\
         forall msg, outcome <> Throw (McpError InvalidRequest msg)).
Proof.
  exists "stock://AAPL/current", "Current stock price for AAPL". eexists.
  split; [intros; reflexivity|].
  intros env log. pose proof (readResource_cases env "stock://AAPL/current" log) as C.
  destruct C as [[Hu _] | [_ C]]; [congruence|].
  split_cases; rewrite C; eexists; (split; [reflexivity | discriminate]).
Qed.

(** X19. The tool name list-tools advertises is the one the call handler
    serves, and the handler asks less than the advertised schema: although
    the schema lists [date] as required, a call with only a string [symbol]
    is accepted and sent to the "last trade" endpoint of that symbol. *)
Theorem listed_tool_is_callable :
  exists (name : string) (description schema : JsValue) (required : list JsValue),
    (forall request log,
       listTools request log =
         (Normal (JObject [("tools", JArray [JObject [
            ("name", JString name);
            ("description", description);
            ("inputSchema", schema)]])]), log)) /\
    Js.get schema "required" = Normal (JArray required) /\
    In (JString "date") required /\
    (forall env sym log,
       exists outcome,
         callTool env name (JObject [("symbol", JString sym)]) log =
           (outcome, (log ++ [("last/stocks/" ++ sym)%string])%list) /\
         forall code msg, outcome <> Throw (McpError code msg)).
Proof.
  exists "get_stock_price". do 3 eexists.
  split; [intros; reflexivity|]. split; [reflexivity|].
  split; [right; left; reflexivity|].
  intros env sym log.
  assert (L : LookupArgs (JObject [("symbol", JString sym)]) sym JUndefined).
  { eexists. repeat split. now left. }
  pose proof (callTool_cases env "get_stock_price"
                (JObject [("symbol", JString sym)]) log) as C.
  destruct C as [[Hn _] | [(_ & V & _) | (_ & sym' & date & L' & C)]].
  - congruence.
  - destruct (shape_excludes_violation _ _ _ L V).
  - assert (sym' = sym /\ date = JUndefined) as [-> ->].
    { destruct L as (p & Hp & Hs & Hd & _), L' as (p' & Hp' & Hs' & Hd' & _).
      injection Hp' as <-. simpl in *. split; congruence. }
    change (selectedPath sym JUndefined) with ("last/stocks/" ++ sym) in C.
    split_cases; rewrite C; eexists; (split; [reflexivity | discriminate]).
Qed.

End Further.

(** ** Instances *)

Lemma callTool_reads_symbol_and_date_witness :
  sampleCallTool sampleEnv "get_stock_price" aaplWithLimit [] =
  sampleCallTool sampleEnv "get_stock_price" aaplLatest [].
Proof.
  apply (callTool_reads_symbol_and_date sampleNumberToString sampleToISOString
           sampleStringify sampleEnv "get_stock_price" aaplWithLimit aaplLatest
           "AAPL" JUndefined []).
  - exists [("limit", JNumber 10%float); ("symbol", JString "AAPL")].
    repeat split. left. reflexivity.
  - exists [("symbol", JString "AAPL")]. repeat split. left. reflexivity.
Defined.

Lemma readResource_returns_witness :
  "stock://AAPL/current" = "stock://AAPL/current" /\
  ["last/stocks/AAPL"] = ([] ++ [lastTradePath "AAPL"])%list /\
  exists r sd,
    upstream sampleEnv (lastTradePath "AAPL") = Resolved r /\
    resourceStockData sampleToISOString sampleEnv r = Normal sd /\
    resourceResult "stock://AAPL/current" "{ symbol: AAPL }" =
      resourceResult "stock://AAPL/current" (sampleStringify sd).
Proof.
  apply (readResource_returns sampleNumberToString sampleToISOString
           sampleStringify sampleEnv "stock://AAPL/current" []
           ["last/stocks/AAPL"]
           (resourceResult "stock://AAPL/current" "{ symbol: AAPL }")).
  reflexivity.
Defined.

Lemma callTool_returns_witness :
  "get_stock_price" = "get_stock_price" /\
  exists sym date,
    LookupArgs aaplLatest sym date /\
    ["last/stocks/AAPL"] = ([] ++ [selectedPath sym date])%list /\
    ((exists r sd,
        upstream rateLimitedEnv (selectedPath sym date) = Resolved r /\
        toolStockData sampleToISOString rateLimitedEnv r = Normal sd /\
        toolErrorResult "Polygon API error: rate limited" =
          toolResult (sampleStringify sd)) \/
     (exists error text,
        upstream rateLimitedEnv (selectedPath sym date) = RejectedAxios error /\
        polygonApiError sampleNumberToString error = Normal text /\
        toolErrorResult "Polygon API error: rate limited" =
          toolErrorResult text)).
Proof.
  apply (callTool_returns sampleNumberToString sampleToISOString
           sampleStringify rateLimitedEnv "get_stock_price" aaplLatest []
           ["last/stocks/AAPL"]
           (toolErrorResult "Polygon API error: rate limited")).
  reflexivity.
Defined.

Lemma isError_marks_transport_errors_witness :
  exists sym date,
    LookupArgs aaplLatest sym date /\
    ((Js.get (toolErrorResult "Polygon API error: rate limited") "isError" =
        Normal (JBool true) /\
      exists error,
        upstream rateLimitedEnv (selectedPath sym date) = RejectedAxios error) \/
     (Js.get (toolErrorResult "Polygon API error: rate limited") "isError" =
        Normal JUndefined /\
      exists r, upstream rateLimitedEnv (selectedPath sym date) = Resolved r)).
Proof.
  apply (isError_marks_transport_errors sampleNumberToString sampleToISOString
           sampleStringify rateLimitedEnv "get_stock_price" aaplLatest []
           ["last/stocks/AAPL"]).
  reflexivity.
Defined.

Lemma foreign_errors_propagate_witness :
  sampleReadResource brokenEnv "stock://AAPL/current" [] =
    (Throw (ForeignError "socket closed"), ["last/stocks/AAPL"]) /\
  sampleCallTool brokenEnv "get_stock_price" msftOnDay [] =
    (Throw (ForeignError "socket closed"), ["open-close/MSFT/2024-01-05"]).
Proof.
  destruct (foreign_errors_propagate sampleNumberToString sampleToISOString
              sampleStringify brokenEnv "socket closed") as [R T].
  split.
  - apply (R []). reflexivity.
  - apply (T msftOnDay "MSFT" (JString "2024-01-05") []); [|reflexivity].
    exists [("symbol", JString "MSFT"); ("date", JString "2024-01-05")].
    repeat split. right. exists "2024-01-05". reflexivity.
Defined.

Lemma provider_message_is_reported_witness :
  sampleReadResource rateLimitedEnv "stock://AAPL/current" [] =
    (Throw (McpError InternalError "Polygon API error: rate limited"),
     ["last/stocks/AAPL"]) /\
  sampleCallTool rateLimitedEnv "get_stock_price" aaplLatest [] =
    (Normal (toolErrorResult "Polygon API error: rate limited"),
     ["last/stocks/AAPL"]).
Proof.
  destruct (provider_message_is_reported sampleNumberToString sampleToISOString
              sampleStringify rateLimitedEnv rateLimited
              {| data := JObject [("message", JString "rate limited")] |}
              "rate limited" eq_refl eq_refl) as [R T].
  split.
  - apply (R []). reflexivity.
  - apply (T aaplLatest "AAPL" JUndefined []); [|reflexivity].
    exists [("symbol", JString "AAPL")]. repeat split. left. reflexivity.
Defined.

Lemma transport_message_is_the_fallback_witness :
  sampleReadResource offlineEnv "stock://AAPL/current" [] =
    (Throw (McpError InternalError "Polygon API error: Network Error"),
     ["last/stocks/AAPL"]) /\
  sampleCallTool offlineEnv "get_stock_price" aaplLatest [] =
    (Normal (toolErrorResult "Polygon API error: Network Error"),
     ["last/stocks/AAPL"]).
Proof.
  destruct (transport_message_is_the_fallback sampleNumberToString
              sampleToISOString sampleStringify offlineEnv networkError
              (or_introl eq_refl)) as [R T].
  split.
  - apply (R []). reflexivity.
  - apply (T aaplLatest "AAPL" JUndefined []); [|reflexivity].
    exists [("symbol", JString "AAPL")]. repeat split. left. reflexivity.
Defined.

Lemma path_is_spliced_verbatim_witness :
  exists outcome,
    sampleCallTool sampleEnv "get_stock_price"
      (JObject [("symbol", JString "AAPL/2024-01-05"); ("date", JString "x")]) [] =
      (outcome, ["open-close/AAPL/2024-01-05/x"]) /\
    sampleCallTool sampleEnv "get_stock_price"
      (JObject [("symbol", JString "AAPL"); ("date", JString "2024-01-05/x")]) [] =
      (outcome, ["open-close/AAPL/2024-01-05/x"]).
Proof.
  apply (path_is_spliced_verbatim sampleNumberToString sampleToISOString
           sampleStringify sampleEnv "AAPL" "2024-01-05" "x" []).
  discriminate.
Defined.

Lemma unreadable_reply_body_witness :
  sampleReadResource nullReplyEnv "stock://AAPL/current" [] =
    (Throw TypeError, ["last/stocks/AAPL"]) /\
  sampleCallTool nullReplyEnv "get_stock_price" aaplLatest [] =
    (Throw TypeError, ["last/stocks/AAPL"]).
Proof.
  destruct (unreadable_reply_body sampleNumberToString sampleToISOString
              sampleStringify nullReplyEnv {| data := JNull |} eq_refl)
    as [R T].
  split.
  - apply (R []). reflexivity.
  - apply (T aaplLatest "AAPL" JUndefined []); [|reflexivity].
    exists [("symbol", JString "AAPL")]. repeat split. left. reflexivity.
Defined.

Lemma fields_are_the_reply_properties_witness :
  exists sd,
    sampleCallTool sampleEnv "get_stock_price" msftOnDay [] =
      (Normal (toolResult (sampleStringify sd)),
       ["open-close/MSFT/2024-01-05"]) /\
    Normal (JString "AAPL") = Normal (symbol sd) /\
    Normal (JNumber 182%float) = Normal (open sd) /\
    Normal (JNumber 182.75%float) = Normal (high sd) /\
    Normal (JNumber 180.25%float) = Normal (low sd) /\
    Normal (JNumber 62303300%float) = Normal (volume sd).
Proof.
  destruct (fields_are_the_reply_properties sampleNumberToString
              sampleToISOString sampleStringify sampleEnv sampleQuote eq_refl)
    as [_ T].
  apply (T msftOnDay "MSFT" (JString "2024-01-05") []); [|reflexivity].
  exists [("symbol", JString "MSFT"); ("date", JString "2024-01-05")].
  repeat split. right. exists "2024-01-05". reflexivity.
Defined.

Lemma blank_reply_gives_blank_stock_data_witness :
  sampleReadResource textReplyEnv "stock://AAPL/current" [] =
    (Normal (resourceResult "stock://AAPL/current" "{}"), ["last/stocks/AAPL"]) /\
  sampleCallTool textReplyEnv "get_stock_price" aaplLatest [] =
    (Normal (toolResult "{}"), ["last/stocks/AAPL"]).
Proof.
  assert (H : forall k,
             In k ["symbol"; "close"; "open"; "high"; "low"; "volume"; "from"] ->
             Js.get (data textReply) k = Normal JUndefined)
    by (intros k _; reflexivity).
  destruct (blank_reply_gives_blank_stock_data sampleNumberToString
              sampleToISOString sampleStringify textReplyEnv textReply H)
    as [R T].
  split.
  - apply (R []). reflexivity.
  - apply (T aaplLatest "AAPL" JUndefined []); [|reflexivity].
    exists [("symbol", JString "AAPL")]. repeat split. left. reflexivity.
Defined.
